(** * Nuvoton M032 flash driver (src/target/numicro_m032.c): ISP engine model

    A shallow embedding of the in-system-programming driver.  The debug
    transport (target_mem_read32, target_mem_write32), the busy delay
    (platform_delay) and the target bookkeeping calls (target_add_ram,
    target_add_flash, target_add_commands) are external to the file; every
    call to one of them is recorded, in program order, in a trace.  What a
    register read returns is decided by the device, which is a parameter
    of the whole development: a function of everything that happened on
    the trace so far.

    DEBUG_INFO / DEBUG_WARN (general.h) are the diagnostic sink; they never
    reach the target and are left out of the trace. *)

From Stdlib Require Import ZArith List Lia Bool String.
Import ListNotations.
Local Open Scope Z_scope.

(** ** Fixed-width integers *)

Definition u32 (x : Z) : Z := x mod 2 ^ 32.
Definition u16 (x : Z) : Z := x mod 2 ^ 16.

(** ** Register locations and bit masks (lines 52-145) *)

Definition NUMICRO_APROM_BASE : Z := 0x00000000.
Definition NUMICRO_LDROM_BASE : Z := 0x00100000.
Definition NUMICRO_SPROM_BASE : Z := 0x00200000.
Definition NUMICRO_SPROM_BASE2 : Z := 0x00240000.
Definition NUMICRO_SPROM_BASE3 : Z := 0x00280000.
Definition NUMICRO_CONFIG_BASE : Z := 0x00300000.

Definition NUMICRO_CONFIG0 : Z := NUMICRO_CONFIG_BASE.
Definition NUMICRO_CONFIG1 : Z := NUMICRO_CONFIG_BASE + 4.
Definition NUMICRO_CONFIG2 : Z := NUMICRO_CONFIG_BASE + 8.

Definition NUMICRO_SYSCLK_AHBCLK : Z := 0x40000204.

Definition NUMICRO_FLASH_ISPCON : Z := 0x4000C000.
Definition NUMICRO_FLASH_ISPADR : Z := 0x4000C004.
Definition NUMICRO_FLASH_ISPDAT : Z := 0x4000C008.
Definition NUMICRO_FLASH_ISPCMD : Z := 0x4000C00C.
Definition NUMICRO_FLASH_ISPTRG : Z := 0x4000C010.

Definition AHBCLK_ISP_EN : Z := Z.shiftl 1 2.

Definition ISPCON_ISPEN : Z := Z.shiftl 1 0.
Definition ISPCON_BS_MASK : Z := Z.shiftl 1 1.
Definition ISPCON_SPUEN : Z := Z.shiftl 1 2.
Definition ISPCON_APUEN : Z := Z.shiftl 1 3.
Definition ISPCON_CFGUEN : Z := Z.shiftl 1 4.
Definition ISPCON_LDUEN : Z := Z.shiftl 1 5.
Definition ISPCON_ISPFF : Z := Z.shiftl 1 6.

Definition CONFIG0_LOCK_MASK : Z := Z.shiftl 1 1.

Definition FMC_ISPCMD_READ : Z := 0x00.
Definition FMC_ISPCMD_WRITE : Z := 0x21.
Definition FMC_ISPCMD_ERASE : Z := 0x22.
Definition FMC_ISPCMD_CHIPERASE : Z := 0x26.
Definition FMC_ISPCMD_READ_CID : Z := 0x0B.
Definition FMC_ISPCMD_READ_UID : Z := 0x04.
Definition FMC_ISPCMD_VECMAP : Z := 0x2E.

Definition ISPTRG_ISPGO : Z := Z.shiftl 1 0.

Definition REG_KEY1 : Z := 0x59.
Definition REG_KEY2 : Z := 0x16.
Definition REG_KEY3 : Z := 0x88.

Definition NUMICRO_APROM_SIZE : Z := 0x10000.
Definition NUMICRO_LDROM_SIZE : Z := 0x800.
Definition NUMICRO_SPROM_SIZE : Z := 0x200.

Definition NUMICRO_PAGESIZE : Z := 512.

Definition NUMICRO_CHIP_ID_ADDRESS : Z := 0x40000000.
Definition NUMICRO_SYS_REGLCTL : Z := 0x40000100.

(** ** The command table (lines 824-837) *)

Inductive cmd_handler : Type :=
| H_cmd_erase_aprom
| H_cmd_erase_ldrom
| H_cmd_erase_sprom
| H_cmd_erase_mass
| H_cmd_erase_chip
| H_set_config0
| H_set_config1
| H_set_config2
| H_read_configs
| H_read_uid
| H_read_cid
| H_read_aprom_page1.

Record command_s : Type := mk_command
  { cmd_name : string; cmd_handler_of : cmd_handler; cmd_help : string }.

Definition nu_m032_cmd_list : list command_s :=
  [ mk_command "erase_aprom" H_cmd_erase_aprom "Erase APROM";
    mk_command "erase_ldrom" H_cmd_erase_ldrom "Erase LDROM";
    mk_command "erase_sprom" H_cmd_erase_sprom "Erase SPROM";
    mk_command "erase_mass" H_cmd_erase_mass "Erase APROM, LDROM and SPROM";
    mk_command "erase_chip" H_cmd_erase_chip "Erase chip via undocumented command";
    mk_command "set_config0" H_set_config0 "Set CONFIG0 Register";
    mk_command "set_config1" H_set_config1 "Set CONFIG1 Register";
    mk_command "set_config2" H_set_config2 "Set CONFIG2 Register";
    mk_command "read_configs" H_read_configs "Read CONFIG Registers";
    mk_command "read_uid" H_read_uid "Read UID";
    mk_command "read_cid" H_read_cid "Read CID";
    mk_command "read_aprom_page1" H_read_aprom_page1 "nu_m032_read_aprom_page1" ].

(** ** struct target_flash as nu_m032_add_flash fills it (lines 394-400) *)

Inductive flash_handler : Type :=
| Fn_nu_m032_flash_erase
| Fn_nu_m032_flash_write.

Record target_flash : Type := mk_flash
  { f_start : Z;
    f_length : Z;
    f_blocksize : Z;
    f_erase : flash_handler;
    f_write : flash_handler;
    f_buf_size : Z;
    f_erased : Z }.

(** ** Trace events *)

(** Entry into one of the three ISP primitives of the driver, with the
    arguments of the call.  These markers let call-level statements (which
    command was issued, with which payload) be read off the same trace as
    the register traffic. *)
Inductive call : Type :=
| Call_reg_unlock
| Call_init_isp (uExtraconf : Z)
| Call_fmc_cmd (cmd addr wdata : Z).

Inductive event : Type :=
| Rd (addr value : Z)          (* target_mem_read32 and the value it returned *)
| Wr (addr value : Z)          (* target_mem_write32 *)
| Delay (ms : Z)               (* platform_delay *)
| Enter (c : call)
| AddRam (start len : Z)       (* target_add_ram *)
| AddFlash (f : target_flash)  (* target_add_flash *)
| AddCommands (cmds : list command_s) (name : string). (* target_add_commands *)

(** ** The target structure and the world around it *)

(** The fields of [target] that the driver reads or assigns. *)
Record target : Type := mk_target
  { cpuid : Z; idcode : Z; driver : string }.

(** [heap] lists the outcomes of the coming calloc calls ([true]: memory
    was obtained); once the list is used up calloc returns NULL. *)
Record world : Type := mk_world
  { tgt : target; trace : list event; heap : list bool }.

(** A run either returns, or is cut off because the loop budget of the
    model ran out, or leaves defined behaviour (a read past the end of the
    source buffer).  The world reached is kept in all three cases. *)
Inductive result (A : Type) : Type :=
| Ok (a : A) (w : world)
| OutOfFuel (w : world)
| Undefined (w : world).
Arguments Ok {A} a w.
Arguments OutOfFuel {A} w.
Arguments Undefined {A} w.

Definition final {A : Type} (r : result A) : world :=
  match r with Ok _ w => w | OutOfFuel w => w | Undefined w => w end.

Definition value {A : Type} (r : result A) : option A :=
  match r with Ok a _ => Some a | _ => None end.

Definition M (A : Type) : Type := world -> result A.

Definition ret {A : Type} (a : A) : M A := fun w => Ok a w.

Definition bind {A B : Type} (m : M A) (f : A -> M B) : M B :=
  fun w => match m w with
           | Ok a w' => f a w'
           | OutOfFuel w' => OutOfFuel w'
           | Undefined w' => Undefined w'
           end.

Notation "x <- m ;; k" := (bind m (fun x => k))
  (at level 61, m at next level, right associativity).
Notation "m ;; k" := (bind m (fun _ => k))
  (at level 61, right associativity).

Definition emit (e : event) : M unit :=
  fun w => Ok tt (mk_world (tgt w) (trace w ++ [e]) (heap w)).

Definition platform_delay (ms : Z) : M unit := emit (Delay ms).

(** The value is a uint32_t; [addr] is always one of the register
    constants above. *)
Definition target_mem_write32 (addr value : Z) : M unit :=
  emit (Wr addr (u32 value)).

Definition enter (c : call) : M unit := emit (Enter c).

(** ** Trace projections *)

Fixpoint calls_of (d : list event) : list call :=
  match d with
  | [] => []
  | Enter c :: d' => c :: calls_of d'
  | _ :: d' => calls_of d'
  end.

(** The ISP commands issued: (opcode, address, payload) of every entry
    into the command executor. *)
Fixpoint fmc_calls (d : list event) : list (Z * Z * Z) :=
  match d with
  | [] => []
  | Enter (Call_fmc_cmd c a x) :: d' => (c, a, x) :: fmc_calls d'
  | _ :: d' => fmc_calls d'
  end.

(** The values written to register [r], in order. *)
Fixpoint reg_writes (r : Z) (d : list event) : list Z :=
  match d with
  | [] => []
  | Wr a v :: d' => if a =? r then v :: reg_writes r d' else reg_writes r d'
  | _ :: d' => reg_writes r d'
  end.

Definition is_write_to (r : Z) (e : event) : bool :=
  match e with Wr a _ => a =? r | _ => false end.

Definition is_read_of (r : Z) (e : event) : bool :=
  match e with Rd a _ => a =? r | _ => false end.

Definition accesses (r : Z) (e : event) : bool :=
  is_write_to r e || is_read_of r e.

Definition is_write (e : event) : bool :=
  match e with Wr _ _ => true | _ => false end.

(** ** Devices used to exercise the model *)

(** A device on which every command completes at once and no flag is
    raised: every register reads 0. *)
Definition hw_idle : list event -> Z -> Z := fun _ _ => 0.

(** A device whose trigger register never leaves the busy state and whose
    ISP control register shows the fail flag. *)
Definition hw_stuck : list event -> Z -> Z :=
  fun _ a => if a =? NUMICRO_FLASH_ISPTRG then 1
             else if a =? NUMICRO_FLASH_ISPCON then 0x40 else 0.

(** A device on which commands complete at once but the fail flag is
    found set after each of them. *)
Definition hw_ff : list event -> Z -> Z :=
  fun _ a => if a =? NUMICRO_FLASH_ISPCON then 0x40 else 0.

(** The M032LD2AE: the chip-ID register reads 0x01132D00. *)
Definition hw_m032 : list event -> Z -> Z :=
  fun _ a => if a =? NUMICRO_CHIP_ID_ADDRESS then 0x01132D00 else 0.

(** Some other part: the chip-ID register reads 0x00012345. *)
Definition hw_other : list event -> Z -> Z :=
  fun _ a => if a =? NUMICRO_CHIP_ID_ADDRESS then 0x00012345 else 0.

(** * The driver *)

Section Driver.

(** What a register read returns, given the trace so far and the address. *)
Variable hw : list event -> Z -> Z.

(** size_t is 32 bits wide on the firmware build and 64 bits wide on the
    hosted build. *)
Variable lp64 : bool.

(** Width of the [idcode] field of [target] (target_internal.h). *)
Variable idcode_bits : Z.

(** CPUID_PARTNO_MASK and CORTEX_M0 (cortexm.h). *)
Variable CPUID_PARTNO_MASK : Z.
Variable CORTEX_M0 : Z.

Definition size_bits : Z := if lp64 then 64 else 32.

Definition size_t (x : Z) : Z := x mod 2 ^ size_bits.

Definition target_mem_read32 (addr : Z) : M Z :=
  fun w => let v := u32 (hw (trace w) addr) in
           Ok v (mk_world (tgt w) (trace w ++ [Rd addr v]) (heap w)).

(** ** nu_m032_reg_unlock (lines 149-171) *)

Definition nu_m032_reg_unlock : M bool :=
  enter Call_reg_unlock ;;
  target_mem_write32 NUMICRO_SYS_REGLCTL 0x59 ;;
  target_mem_write32 NUMICRO_SYS_REGLCTL 0x16 ;;
  target_mem_write32 NUMICRO_SYS_REGLCTL 0x88 ;;
  uRead <- target_mem_read32 NUMICRO_SYS_REGLCTL ;;
  (* both branches of [if (uRead == 0)] only print *)
  (if uRead =? 0 then ret tt else ret tt) ;;
  ret true.

(** ** nu_m032_fmc_cmd (lines 188-240) *)

(** The polling loop of lines 204-224.  [timeout] is the counter of the C
    code: [timeout-- <= 0] on an unsigned counter holds exactly when the
    counter is 0 before the decrement.  The result is [true] when the loop
    is left by [break] and [false] when it is left by [return]. *)
Fixpoint fmc_wait (timeout : nat) (w : world) : result bool :=
  (status <- target_mem_read32 NUMICRO_FLASH_ISPTRG ;;
   if Z.land status ISPTRG_ISPGO =? 0 then ret true
   else match timeout with
        | O => ret false
        | S n => platform_delay 1 ;; fmc_wait n
        end) w.

(** The result is [Some v] when [*rdata] is assigned [v] and [None] when
    [*rdata] is left as the caller had it.  (The store of 0xABCDABCD on
    line 236 is overwritten by the next statement.)  The three arguments
    are uint32_t: they are converted on entry. *)
Definition nu_m032_fmc_cmd (cmd addr wdata : Z) : M (option Z) :=
  let cmd := u32 cmd in
  let addr := u32 addr in
  let wdata := u32 wdata in
  enter (Call_fmc_cmd cmd addr wdata) ;;
  target_mem_write32 NUMICRO_FLASH_ISPCMD cmd ;;
  target_mem_write32 NUMICRO_FLASH_ISPADR addr ;;
  (if cmd =? FMC_ISPCMD_WRITE
   then target_mem_write32 NUMICRO_FLASH_ISPDAT wdata
   else ret tt) ;;
  target_mem_write32 NUMICRO_FLASH_ISPTRG ISPTRG_ISPGO ;;
  completed <- fmc_wait 100 ;;
  if completed then
    status <- target_mem_read32 NUMICRO_FLASH_ISPCON ;;
    (if Z.land status ISPCON_ISPFF =? 0
     then ret tt
     else target_mem_write32 NUMICRO_FLASH_ISPCON status) ;;
    if cmd =? FMC_ISPCMD_READ
    then rdata <- target_mem_read32 NUMICRO_FLASH_ISPDAT ;; ret (Some rdata)
    else ret None
  else ret None.

(** ** nu_m032_init_isp (lines 242-303) *)

Definition nu_m032_init_isp (uExtraconf : Z) : M Z :=
  let uExtraconf := u32 uExtraconf in
  enter (Call_init_isp uExtraconf) ;;
  retval <- nu_m032_reg_unlock ;;
  if negb retval then ret (-1)
  else
    reg_stat <- target_mem_read32 NUMICRO_SYSCLK_AHBCLK ;;
    target_mem_write32 NUMICRO_SYSCLK_AHBCLK (Z.lor reg_stat AHBCLK_ISP_EN) ;;
    platform_delay 100 ;;
    reg_stat <- target_mem_read32 NUMICRO_FLASH_ISPCON ;;
    target_mem_write32 NUMICRO_FLASH_ISPCON
      (Z.lor reg_stat (Z.lor (Z.lor ISPCON_ISPFF ISPCON_ISPEN) uExtraconf)) ;;
    platform_delay 100 ;;
    ret 0.

(** ** The page loop of lines 328-336, 426-436, 466-476 and 506-516

    The four erase loops have the same body (the three maintenance copies
    add a diagnostic print).  [szSize] is a size_t: the subtraction wraps.
    [fuel] bounds the number of iterations the model follows. *)
Fixpoint erase_loop (fuel : nat) (uAddr szSize : Z) (w : world) : result unit :=
  if 0 <? szSize then
    match fuel with
    | O => OutOfFuel w
    | S k =>
        (nu_m032_fmc_cmd FMC_ISPCMD_ERASE uAddr 0 ;;
         platform_delay 100 ;;
         erase_loop k (u32 (uAddr + NUMICRO_PAGESIZE))
                      (size_t (szSize - NUMICRO_PAGESIZE))) w
    end
  else Ok tt w.

(** ** nu_m032_flash_erase (lines 305-342)

    [f] is used for [f->t] only.  The function returns an int; [return
    false] on line 320 returns 0. *)
Definition nu_m032_flash_erase (fuel : nat) (addr len : Z) : M Z :=
  retval <- nu_m032_init_isp (Z.lor ISPCON_APUEN ISPCON_LDUEN) ;;
  if negb (retval =? 0) then ret 0
  else
    erase_loop fuel (u32 addr) (size_t len) ;;
    ret 0.

(** ** nu_m032_flash_write (lines 344-380)

    The source buffer is the list of the 32-bit words found at [src];
    [pSrc] is the part of it not yet consumed, [pSrc++] drops its head.
    Reading a word past the end of the buffer is undefined. *)
Fixpoint write_loop (fuel : nat) (uAddr szSize : Z) (pSrc : list Z) (w : world)
  : result unit :=
  if 0 <? szSize then
    match fuel with
    | O => OutOfFuel w
    | S k =>
        match pSrc with
        | [] => Undefined w
        | uRegWrite :: pSrc' =>
            (nu_m032_fmc_cmd FMC_ISPCMD_WRITE uAddr (u32 uRegWrite) ;;
             platform_delay 10 ;;
             write_loop k (u32 (uAddr + 4)) (size_t (szSize - 4)) pSrc') w
        end
    end
  else Ok tt w.

Definition nu_m032_flash_write (fuel : nat) (dest : Z) (src : list Z) (len : Z)
  : M Z :=
  write_loop fuel (u32 dest) (size_t len) src ;;
  ret 0.

(** ** nu_m032_add_flash (lines 384-402) *)

Definition calloc : M bool :=
  fun w => match heap w with
           | [] => Ok false w
           | b :: h => Ok b (mk_world (tgt w) (trace w) h)
           end.

Definition nu_m032_add_flash (addr length erasesize : Z) : M unit :=
  f <- calloc ;;
  if negb f then ret tt
  else
    emit (AddFlash (mk_flash (u32 addr) (size_t length) (size_t erasesize)
                             Fn_nu_m032_flash_erase Fn_nu_m032_flash_write
                             (size_t erasesize) 0xff)).

(** ** Maintenance commands (lines 404-822); argc and argv are unused *)

Definition nu_m032_cmd_erase_aprom (fuel : nat) : M bool :=
  retval <- nu_m032_init_isp ISPCON_APUEN ;;
  if negb (retval =? 0) then ret false
  else
    erase_loop fuel NUMICRO_APROM_BASE (size_t NUMICRO_APROM_SIZE) ;;
    ret true.

Definition nu_m032_cmd_erase_ldrom (fuel : nat) : M bool :=
  retval <- nu_m032_init_isp ISPCON_LDUEN ;;
  if negb (retval =? 0) then ret false
  else
    erase_loop fuel NUMICRO_LDROM_BASE (size_t NUMICRO_LDROM_SIZE) ;;
    ret true.

Definition nu_m032_cmd_erase_sprom (fuel : nat) : M bool :=
  retval <- nu_m032_init_isp ISPCON_SPUEN ;;
  if negb (retval =? 0) then ret false
  else
    erase_loop fuel NUMICRO_SPROM_BASE (size_t NUMICRO_SPROM_SIZE) ;;
    ret true.

(** The results of the two calls are dropped; the call of
    nu_m032_cmd_erase_sprom on line 533 is commented out. *)
Definition nu_m032_cmd_erase_mass (fuel : nat) : M bool :=
  nu_m032_cmd_erase_aprom fuel ;;
  nu_m032_cmd_erase_ldrom fuel ;;
  ret true.

Definition nu_m032_cmd_erase_chip : M bool :=
  retval <- nu_m032_init_isp
              (Z.lor (Z.lor ISPCON_APUEN ISPCON_LDUEN) ISPCON_SPUEN) ;;
  if negb (retval =? 0) then ret false
  else
    nu_m032_fmc_cmd FMC_ISPCMD_CHIPERASE 0x0 0x0 ;;
    platform_delay 100 ;;
    ret true.

Definition nu_m032_set_config0 : M bool := ret true.
Definition nu_m032_set_config1 : M bool := ret true.
Definition nu_m032_set_config2 : M bool := ret true.

(** What a variable handed to the executor as [rdata] holds afterwards. *)
Definition assigned (old : Z) (r : option Z) : Z :=
  match r with Some v => v | None => old end.

(** The boot source and lock state that nu_m032_read_configs prints for a
    CONFIG0 word (lines 654-671). *)
Definition config0_boots_from_ldrom (uRegValue0 : Z) : bool :=
  Z.land uRegValue0 (Z.shiftl 1 7) =? 0.

Definition config0_locked (uRegValue0 : Z) : bool :=
  Z.land uRegValue0 CONFIG0_LOCK_MASK =? 0.

Definition nu_m032_read_configs : M bool :=
  retval <- nu_m032_init_isp 0x0 ;;
  if negb (retval =? 0) then ret false
  else
    r0 <- nu_m032_fmc_cmd FMC_ISPCMD_READ NUMICRO_CONFIG0 0 ;;
    r1 <- nu_m032_fmc_cmd FMC_ISPCMD_READ NUMICRO_CONFIG1 0 ;;
    r2 <- nu_m032_fmc_cmd FMC_ISPCMD_READ NUMICRO_CONFIG2 0 ;;
    let uRegValue0 := assigned 0xABCDABCD r0 in
    (* the branches below only print *)
    (if config0_boots_from_ldrom uRegValue0 then ret tt else ret tt) ;;
    (if config0_locked uRegValue0 then ret tt else ret tt) ;;
    uRegSample <- target_mem_read32 NUMICRO_FLASH_ISPCON ;;
    (if Z.land uRegSample ISPCON_BS_MASK =? 0 then ret tt else ret tt) ;;
    ret true.

Definition nu_m032_read_uid : M bool :=
  retval <- nu_m032_init_isp 0x0 ;;
  if negb (retval =? 0) then ret false
  else
    nu_m032_fmc_cmd FMC_ISPCMD_READ_UID 0x00 0 ;;
    nu_m032_fmc_cmd FMC_ISPCMD_READ_UID 0x04 0 ;;
    nu_m032_fmc_cmd FMC_ISPCMD_READ_UID 0x08 0 ;;
    ret true.

Definition nu_m032_read_cid : M bool :=
  retval <- nu_m032_init_isp 0x0 ;;
  if negb (retval =? 0) then ret false
  else
    nu_m032_fmc_cmd FMC_ISPCMD_READ_CID 0x00 0 ;;
    nu_m032_fmc_cmd FMC_ISPCMD_READ_CID 0x04 0 ;;
    nu_m032_fmc_cmd FMC_ISPCMD_READ_CID 0x08 0 ;;
    nu_m032_fmc_cmd FMC_ISPCMD_READ_CID 0x0C 0 ;;
    ret true.

(** The word loop of lines 776-791 and 801-816. *)
Fixpoint read_loop (fuel : nat) (uAddr szSize : Z) (w : world) : result unit :=
  if 0 <? szSize then
    match fuel with
    | O => OutOfFuel w
    | S k =>
        (nu_m032_fmc_cmd FMC_ISPCMD_READ uAddr 0 ;;
         read_loop k (u32 (uAddr + 4)) (size_t (szSize - 4))) w
    end
  else Ok tt w.

Definition nu_m032_read_aprom_page1 (fuel : nat) : M bool :=
  retval <- nu_m032_init_isp 0x0 ;;
  if negb (retval =? 0) then ret false
  else
    read_loop fuel NUMICRO_APROM_BASE (size_t NUMICRO_PAGESIZE) ;;
    read_loop fuel (u32 (NUMICRO_APROM_BASE + NUMICRO_PAGESIZE))
              (size_t NUMICRO_PAGESIZE) ;;
    ret true.

(** Dispatch through the command table. *)
Definition run_handler (fuel : nat) (h : cmd_handler) : M bool :=
  match h with
  | H_cmd_erase_aprom => nu_m032_cmd_erase_aprom fuel
  | H_cmd_erase_ldrom => nu_m032_cmd_erase_ldrom fuel
  | H_cmd_erase_sprom => nu_m032_cmd_erase_sprom fuel
  | H_cmd_erase_mass => nu_m032_cmd_erase_mass fuel
  | H_cmd_erase_chip => nu_m032_cmd_erase_chip
  | H_set_config0 => nu_m032_set_config0
  | H_set_config1 => nu_m032_set_config1
  | H_set_config2 => nu_m032_set_config2
  | H_read_configs => nu_m032_read_configs
  | H_read_uid => nu_m032_read_uid
  | H_read_cid => nu_m032_read_cid
  | H_read_aprom_page1 => nu_m032_read_aprom_page1 fuel
  end.

(** ** nu_m032_probe (lines 842-917) *)

Definition set_driver (s : string) : M unit :=
  fun w => Ok tt (mk_world (mk_target (cpuid (tgt w)) (idcode (tgt w)) s)
                           (trace w) (heap w)).

(** A store to [t->idcode] converts to the width of the field. *)
Definition set_idcode (v : Z) : M unit :=
  fun w => Ok tt (mk_world (mk_target (cpuid (tgt w)) (v mod 2 ^ idcode_bits)
                                      (driver (tgt w)))
                           (trace w) (heap w)).

Definition get_target : M target := fun w => Ok (tgt w) w.

Definition target_add_ram (start len : Z) : M unit :=
  emit (AddRam (u32 start) (size_t len)).

Definition target_add_commands (cmds : list command_s) (name : string) : M unit :=
  emit (AddCommands cmds name).

Definition nu_m032_probe : M bool :=
  t <- get_target ;;
  let stored_idcode := u16 (idcode t) in
  uChipID <- (if Z.land (cpuid t) CPUID_PARTNO_MASK =? CORTEX_M0
              then target_mem_read32 NUMICRO_CHIP_ID_ADDRESS
              else ret 0x00000000) ;;
  if uChipID =? 0x01132D00 then
    set_driver "M032LD2AE" ;;
    let ram_size_INTERNAL := size_t 0x2000 in
    let flash_size_APROM := size_t NUMICRO_APROM_SIZE in
    let block_size_APROM := size_t NUMICRO_PAGESIZE in
    let flash_size_LDROM := size_t 0x800 in
    let block_size_LDROM := size_t NUMICRO_PAGESIZE in
    let flash_size_CONFIG := size_t 12 in
    let block_size_CONFIG := size_t 4 in
    target_add_ram 0x20000000 ram_size_INTERNAL ;;
    nu_m032_add_flash NUMICRO_APROM_BASE flash_size_APROM block_size_APROM ;;
    nu_m032_add_flash NUMICRO_LDROM_BASE flash_size_LDROM block_size_LDROM ;;
    nu_m032_add_flash NUMICRO_CONFIG_BASE flash_size_CONFIG block_size_CONFIG ;;
    target_add_commands nu_m032_cmd_list "M032xxxxx" ;;
    ret true
  else
    set_idcode stored_idcode ;;
    ret false.

End Driver.

(** * Shapes of the traces *)

(** [steps w w' d]: from [w] the run reached [w'], the events of [d] were
    appended to the trace and nothing else changed. *)
Definition steps (w w' : world) (d : list event) : Prop :=
  trace w' = trace w ++ d /\ tgt w' = tgt w /\ heap w' = heap w.

(** A read of the trigger register that found the go bit clear. *)
Definition go_clear (e : event) : bool :=
  match e with
  | Rd a v => (a =? NUMICRO_FLASH_ISPTRG) && (Z.land v ISPTRG_ISPGO =? 0)
  | _ => false
  end.

(** The events of the polling loop: reads of the trigger register and
    delays of one millisecond. *)
Definition poll_event (e : event) : bool :=
  match e with
  | Rd a _ => a =? NUMICRO_FLASH_ISPTRG
  | Delay ms => ms =? 1
  | _ => false
  end.

(** What the executor does up to and including the trigger write. *)
Definition fmc_head (cmd addr wdata : Z) : list event :=
  Enter (Call_fmc_cmd cmd addr wdata)
  :: Wr NUMICRO_FLASH_ISPCMD cmd
  :: Wr NUMICRO_FLASH_ISPADR addr
  :: (if cmd =? FMC_ISPCMD_WRITE then [Wr NUMICRO_FLASH_ISPDAT wdata] else [])
  ++ [Wr NUMICRO_FLASH_ISPTRG ISPTRG_ISPGO].

(** What it does after the loop was left by [break]: [status] is the
    value read from the ISP control register, [rdata] the value read from
    the data register when the opcode is "read". *)
Definition fmc_tail (cmd status rdata : Z) : list event :=
  Rd NUMICRO_FLASH_ISPCON status
  :: (if Z.land status ISPCON_ISPFF =? 0 then []
      else [Wr NUMICRO_FLASH_ISPCON status])
  ++ (if cmd =? FMC_ISPCMD_READ then [Rd NUMICRO_FLASH_ISPDAT rdata] else []).

(** The events of nu_m032_init_isp: [k], [x] and [y] are the values read
    from the lock-control, clock-gate and ISP control registers. *)
Definition init_events (conf k x y : Z) : list event :=
  [ Enter (Call_init_isp conf);
    Enter Call_reg_unlock;
    Wr NUMICRO_SYS_REGLCTL 0x59;
    Wr NUMICRO_SYS_REGLCTL 0x16;
    Wr NUMICRO_SYS_REGLCTL 0x88;
    Rd NUMICRO_SYS_REGLCTL k;
    Rd NUMICRO_SYSCLK_AHBCLK x;
    Wr NUMICRO_SYSCLK_AHBCLK (u32 (Z.lor x AHBCLK_ISP_EN));
    Delay 100;
    Rd NUMICRO_FLASH_ISPCON y;
    Wr NUMICRO_FLASH_ISPCON
       (u32 (Z.lor y (Z.lor (Z.lor ISPCON_ISPFF ISPCON_ISPEN) conf)));
    Delay 100 ].

(** The events of one run of the executor, for arguments already
    converted to uint32_t: the head, the polls, and then either nothing
    (101 polls, all busy) or the tail. *)
Definition fmc_events (cmd addr wdata : Z) (d : list event) : Prop :=
  exists polls tail,
    d = fmc_head cmd addr wdata ++ polls ++ tail /\
    forallb poll_event polls = true /\
    ((existsb go_clear polls = false /\ tail = [] /\
      List.length (filter (is_read_of NUMICRO_FLASH_ISPTRG) polls) = 101%nat)
     \/
     (existsb go_clear polls = true /\
      exists status rdata,
        u32 status = status /\ tail = fmc_tail cmd status rdata)).

(** A run of commands [cs], each followed by the events [gap]. *)
Inductive cmd_run (gap : list event) : list (Z * Z * Z) -> list event -> Prop :=
| cmd_run_nil : cmd_run gap [] []
| cmd_run_cons c a x d cs rest :
    fmc_events c a x d ->
    cmd_run gap cs rest ->
    cmd_run gap ((c, a, x) :: cs) (d ++ gap ++ rest).

(** The four registers that carry a command. *)
Definition isp_command_reg (a : Z) : bool :=
  (a =? NUMICRO_FLASH_ISPCMD) || (a =? NUMICRO_FLASH_ISPADR)
  || (a =? NUMICRO_FLASH_ISPDAT) || (a =? NUMICRO_FLASH_ISPTRG).

(** Events of a run that neither enters the unlocker or the initializer
    nor writes a register other than the four command registers. *)
Definition command_regs_only (e : event) : bool :=
  match e with
  | Wr a _ => isp_command_reg a
  | Enter (Call_fmc_cmd _ _ _) => true
  | Enter _ => false
  | Rd _ _ => true
  | Delay _ => true
  | _ => false
  end.

(** The same, with the write-back of a raised fail flag to the ISP control
    register allowed. *)
Definition write_frame (e : event) : bool :=
  match e with
  | Wr a v =>
      isp_command_reg a
      || ((a =? NUMICRO_FLASH_ISPCON) && negb (Z.land v ISPCON_ISPFF =? 0))
  | _ => command_regs_only e
  end.

(** Addresses of the security region (SPROM) and of its two alternates. *)
Definition in_region (base size a : Z) : bool :=
  (base <=? a) && (a <? base + size).

Definition in_sprom (a : Z) : bool :=
  in_region NUMICRO_SPROM_BASE NUMICRO_SPROM_SIZE a
  || in_region NUMICRO_SPROM_BASE2 NUMICRO_SPROM_SIZE a
  || in_region NUMICRO_SPROM_BASE3 NUMICRO_SPROM_SIZE a.

(** An event touches the security region when it is a command on one of
    its addresses, loads such an address into the ISP address register,
    accesses such an address, or asks the initializer for the security
    unlock bit. *)
Definition touches_sprom (e : event) : bool :=
  match e with
  | Enter (Call_fmc_cmd _ a _) => in_sprom a
  | Enter (Call_init_isp conf) => negb (Z.land conf ISPCON_SPUEN =? 0)
  | Wr a v => in_sprom a || ((a =? NUMICRO_FLASH_ISPADR) && in_sprom v)
  | Rd a _ => in_sprom a
  | _ => false
  end.

(** The commands of a page loop: [n] commands of opcode [cmd], payload 0,
    on addresses [uAddr], [uAddr + step], ... (32-bit arithmetic). *)
Definition page_cmds (cmd uAddr step : Z) (n : nat) : list (Z * Z * Z) :=
  map (fun i => (cmd, u32 (uAddr + step * Z.of_nat i), 0)) (seq 0 n).

(** The commands of the write loop for the first [n] words of [src]. *)
Definition word_cmds (uAddr : Z) (src : list Z) (n : nat) : list (Z * Z * Z) :=
  map (fun i => (FMC_ISPCMD_WRITE, u32 (uAddr + 4 * Z.of_nat i), nth i src 0))
      (seq 0 n).

(** The chip identifier the probe switches on: what the chip-ID register
    reads when the core matches, 0 otherwise; and the register read that
    this takes. *)
Definition chip_id_seen (hw : list event -> Z -> Z)
  (CPUID_PARTNO_MASK CORTEX_M0 : Z) (w : world) : Z :=
  if Z.land (cpuid (tgt w)) CPUID_PARTNO_MASK =? CORTEX_M0
  then u32 (hw (trace w) NUMICRO_CHIP_ID_ADDRESS) else 0.

Definition chip_id_reads (hw : list event -> Z -> Z)
  (CPUID_PARTNO_MASK CORTEX_M0 : Z) (w : world) : list event :=
  if Z.land (cpuid (tgt w)) CPUID_PARTNO_MASK =? CORTEX_M0
  then [Rd NUMICRO_CHIP_ID_ADDRESS (u32 (hw (trace w) NUMICRO_CHIP_ID_ADDRESS))]
  else [].

(** The registrations that three calls of nu_m032_add_flash make for the
    regions [fs] when calloc answers as [hp] lists (NULL once [hp] is used
    up): a region whose allocation fails is skipped. *)
Fixpoint registered (fs : list target_flash) (hp : list bool) : list event :=
  match fs with
  | [] => []
  | f :: fs' =>
      match hp with
      | true :: hp' => AddFlash f :: registered fs' hp'
      | false :: hp' => registered fs' hp'
      | [] => registered fs' []
      end
  end.

(** ** Worlds used to exercise the model *)

(** A freshly attached Cortex-M0 target (CPUID 0x410CC200), nothing on the
    trace yet, three allocations available. *)
Definition w_boot : world :=
  mk_world (mk_target 0x410CC200 0x0449 "") [] [true; true; true].

(** The same target with the heap used up. *)
Definition w_no_heap : world :=
  mk_world (mk_target 0x410CC200 0x0449 "") [] [].

(** A target whose identifier does not fit in 16 bits. *)
Definition w_wide_id : world :=
  mk_world (mk_target 0x410CC200 0x10449 "") [] [true; true; true].

(** A source buffer of three words. *)
Definition src_three_words : list Z := [0x11223344; 0xDEADBEEF; 7].

(** * Proofs *)

(** ** Concrete runs *)

(** One erase command on a device that completes at once. *)
Example fmc_cmd_erase_on_idle_device :
  nu_m032_fmc_cmd hw_idle FMC_ISPCMD_ERASE 0x200 0 w_boot
  = Ok None
       (mk_world (tgt w_boot)
          [ Enter (Call_fmc_cmd 0x22 0x200 0);
            Wr NUMICRO_FLASH_ISPCMD 0x22;
            Wr NUMICRO_FLASH_ISPADR 0x200;
            Wr NUMICRO_FLASH_ISPTRG 1;
            Rd NUMICRO_FLASH_ISPTRG 0;
            Rd NUMICRO_FLASH_ISPCON 0 ]
          (heap w_boot)).
Proof. reflexivity. Qed.

(** One read command on a device that raises the fail flag: the flag is
    written back and the data register is fetched. *)
Example fmc_cmd_read_on_flagging_device :
  nu_m032_fmc_cmd hw_ff FMC_ISPCMD_READ NUMICRO_CONFIG0 0 w_boot
  = Ok (Some 0)
       (mk_world (tgt w_boot)
          [ Enter (Call_fmc_cmd 0x00 0x300000 0);
            Wr NUMICRO_FLASH_ISPCMD 0x00;
            Wr NUMICRO_FLASH_ISPADR 0x300000;
            Wr NUMICRO_FLASH_ISPTRG 1;
            Rd NUMICRO_FLASH_ISPTRG 0;
            Rd NUMICRO_FLASH_ISPCON 0x40;
            Wr NUMICRO_FLASH_ISPCON 0x40;
            Rd NUMICRO_FLASH_ISPDAT 0 ]
          (heap w_boot)).
Proof. reflexivity. Qed.

(** The initializer, asked for the main-region unlock bit. *)
Example init_isp_on_idle_device :
  trace (final (nu_m032_init_isp hw_idle ISPCON_APUEN w_boot))
  = init_events ISPCON_APUEN 0 0 0
  /\ reg_writes NUMICRO_FLASH_ISPCON
       (trace (final (nu_m032_init_isp hw_idle ISPCON_APUEN w_boot)))
     = [0x49].
Proof. split; reflexivity. Qed.

(** An erase whose length is not a multiple of the page size: the size
    counter wraps past zero and the loop goes on; a budget of 50
    iterations is used up after 50 commands. *)
Example flash_erase_unaligned_runs_on :
  value (nu_m032_flash_erase hw_idle false 50 0x0 700 w_boot) = None
  /\ List.length
       (fmc_calls (trace (final (nu_m032_flash_erase hw_idle false 50 0x0 700
                                   w_boot)))) = 50%nat.
Proof. vm_compute. split; reflexivity. Qed.

(** A write that asks for more words than the buffer holds. *)
Example flash_write_past_the_buffer :
  exists w',
    nu_m032_flash_write hw_idle false 5 0x0 [1; 2] 12 w_boot = Undefined w'
    /\ fmc_calls (trace w') = [(0x21, 0, 1); (0x21, 4, 2)].
Proof. eexists. vm_compute. split; reflexivity. Qed.

(** The full-chip erase on a device that never completes a command: the
    command times out and the operation reports success. *)
Example erase_chip_on_stuck_device :
  value (nu_m032_cmd_erase_chip hw_stuck w_boot) = Some true
  /\ existsb go_clear (trace (final (nu_m032_cmd_erase_chip hw_stuck w_boot)))
     = false.
Proof. vm_compute. split; reflexivity. Qed.

(** ** Arithmetic and the monad *)

Lemma u32_range x : 0 <= u32 x < 2 ^ 32.
Proof. unfold u32. apply Z.mod_pos_bound. lia. Qed.

Lemma u32_small x : 0 <= x < 2 ^ 32 -> u32 x = x.
Proof. intros. unfold u32. apply Z.mod_small. assumption. Qed.

Lemma u32_idem x : u32 (u32 x) = u32 x.
Proof. apply u32_small, u32_range. Qed.

Lemma u32_add_l a b : u32 (u32 a + b) = u32 (a + b).
Proof. unfold u32. apply Zplus_mod_idemp_l. Qed.

Lemma steps_refl w : steps w w [].
Proof. unfold steps. rewrite app_nil_r. auto. Qed.

Lemma steps_trans w1 w2 w3 d1 d2 :
  steps w1 w2 d1 -> steps w2 w3 d2 -> steps w1 w3 (d1 ++ d2).
Proof.
  unfold steps. intros (T1 & G1 & H1) (T2 & G2 & H2).
  rewrite T2, T1, G2, G1, H2, H1, app_assoc. auto.
Qed.

Lemma steps_emit w e :
  steps w (mk_world (tgt w) (trace w ++ [e]) (heap w)) [e].
Proof. unfold steps. simpl. auto. Qed.

Lemma bind_ok {A B : Type} (m : M A) (f : A -> M B) w a w1 :
  m w = Ok a w1 -> bind m f w = f a w1.
Proof. intros H. unfold bind. rewrite H. reflexivity. Qed.

Lemma read32_run (hw : list event -> Z -> Z) a w :
  exists v w', target_mem_read32 hw a w = Ok v w' /\ steps w w' [Rd a v]
               /\ u32 v = v.
Proof.
  eexists. eexists. split; [reflexivity|]. split.
  - apply steps_emit.
  - apply u32_idem.
Qed.

Lemma steps_eq w w' d d' : steps w w' d -> d = d' -> steps w w' d'.
Proof. intros H E. rewrite <- E. exact H. Qed.

Lemma emit_run e w : exists w', emit e w = Ok tt w' /\ steps w w' [e].
Proof. eexists. split; [reflexivity | apply steps_emit]. Qed.

Lemma bind_ret {A B : Type} (a : A) (f : A -> M B) w : bind (ret a) f w = f a w.
Proof. reflexivity. Qed.

(** One step of symbolic execution: the head of the program is an
    external call that always returns. *)
Ltac run_emit :=
  match goal with
  | |- context [bind (emit ?e) ?f ?w] =>
      let w' := fresh "w" in
      let R := fresh "R" in
      let S := fresh "S" in
      destruct (emit_run e w) as (w' & R & S);
      rewrite (bind_ok (emit e) f w tt w' R); clear R
  | |- context [emit ?e ?w] =>
      let w' := fresh "w" in
      let R := fresh "R" in
      let S := fresh "S" in
      destruct (emit_run e w) as (w' & R & S);
      rewrite R; clear R
  end.

Ltac run_read hw :=
  match goal with
  | |- context [bind (target_mem_read32 hw ?a) ?f ?w] =>
      let v := fresh "v" in
      let w' := fresh "w" in
      let R := fresh "R" in
      let S := fresh "S" in
      let U := fresh "U" in
      destruct (read32_run hw a w) as (v & w' & R & S & U);
      rewrite (bind_ok (target_mem_read32 hw a) f w v w' R); clear R
  end.

Lemma when_emit_run (b : bool) e w :
  exists w', (if b then emit e else ret tt) w = Ok tt w' /\
             steps w w' (if b then [e] else []).
Proof.
  destruct b; [apply emit_run|].
  exists w. split; [reflexivity | apply steps_refl].
Qed.

Lemma unless_emit_run (b : bool) e w :
  exists w', (if b then ret tt else emit e) w = Ok tt w' /\
             steps w w' (if b then [] else [e]).
Proof.
  destruct b; [|apply emit_run].
  exists w. split; [reflexivity | apply steps_refl].
Qed.

Ltac run_when :=
  match goal with
  | |- context [bind (if ?b then emit ?e else ret tt) ?f ?w] =>
      let w' := fresh "w" in
      let R := fresh "R" in
      let S := fresh "S" in
      destruct (when_emit_run b e w) as (w' & R & S);
      rewrite (bind_ok _ f w tt w' R); clear R
  | |- context [bind (if ?b then ret tt else emit ?e) ?f ?w] =>
      let w' := fresh "w" in
      let R := fresh "R" in
      let S := fresh "S" in
      destruct (unless_emit_run b e w) as (w' & R & S);
      rewrite (bind_ok _ f w tt w' R); clear R
  end.

(** Glues the [steps] facts collected along a run. *)
Ltac steps_chain :=
  eapply steps_eq;
  [ repeat (eapply steps_trans; [eassumption|]); apply steps_refl
  | simpl; rewrite ?app_nil_r; try reflexivity ].

Section Executor.

Variable hw : list event -> Z -> Z.

Lemma fmc_wait_run (n : nat) : forall w,
  exists b w' polls,
    fmc_wait hw n w = Ok b w' /\ steps w w' polls /\
    forallb poll_event polls = true /\
    existsb go_clear polls = b /\
    (b = false ->
     List.length (filter (is_read_of NUMICRO_FLASH_ISPTRG) polls) = S n).
Proof.
  induction n as [|n IH]; intros w.
  - destruct (read32_run hw NUMICRO_FLASH_ISPTRG w) as (v & w1 & R & S1 & _).
    simpl. rewrite (bind_ok _ _ _ _ _ R).
    destruct (Z.land v ISPTRG_ISPGO =? 0) eqn:G.
    + exists true, w1, [Rd NUMICRO_FLASH_ISPTRG v]. simpl. rewrite G.
      split; [reflexivity|]. split; [exact S1|].
      repeat split; auto; discriminate.
    + exists false, w1, [Rd NUMICRO_FLASH_ISPTRG v]. simpl. rewrite G.
      split; [reflexivity|]. split; [exact S1|].
      repeat split; auto; discriminate.
  - destruct (read32_run hw NUMICRO_FLASH_ISPTRG w) as (v & w1 & R & S1 & _).
    simpl. rewrite (bind_ok _ _ _ _ _ R).
    destruct (Z.land v ISPTRG_ISPGO =? 0) eqn:G.
    + exists true, w1, [Rd NUMICRO_FLASH_ISPTRG v]. simpl. rewrite G.
      split; [reflexivity|]. split; [exact S1|].
      repeat split; auto; discriminate.
    + set (w2 := mk_world (tgt w1) (trace w1 ++ [Delay 1]) (heap w1)).
      destruct (IH w2) as (b & w3 & polls & R3 & S3 & P3 & E3 & L3).
      exists b, w3, (Rd NUMICRO_FLASH_ISPTRG v :: Delay 1 :: polls).
      split.
      { unfold bind at 1. unfold platform_delay, emit. fold w2. exact R3. }
      split.
      { change (Rd NUMICRO_FLASH_ISPTRG v :: Delay 1 :: polls)
          with ([Rd NUMICRO_FLASH_ISPTRG v] ++ [Delay 1] ++ polls).
        eapply steps_trans; [exact S1|].
        eapply steps_trans; [apply steps_emit | exact S3]. }
      simpl. rewrite G. simpl. repeat split; auto.
Qed.

Lemma fmc_cmd_run cmd addr wdata w :
  exists r w' polls tail,
    nu_m032_fmc_cmd hw cmd addr wdata w = Ok r w' /\
    steps w w' (fmc_head (u32 cmd) (u32 addr) (u32 wdata) ++ polls ++ tail) /\
    forallb poll_event polls = true /\
    ( (existsb go_clear polls = false /\ tail = [] /\ r = None /\
       List.length (filter (is_read_of NUMICRO_FLASH_ISPTRG) polls) = 101%nat)
      \/
      (existsb go_clear polls = true /\
       exists status rdata,
         u32 status = status /\
         tail = fmc_tail (u32 cmd) status rdata /\
         r = if u32 cmd =? FMC_ISPCMD_READ then Some rdata else None) ).
Proof.
  unfold nu_m032_fmc_cmd, enter, target_mem_write32, fmc_head.
  cbv zeta. rewrite !u32_idem.
  change (u32 ISPTRG_ISPGO) with ISPTRG_ISPGO.
  set (c := u32 cmd). set (a := u32 addr). set (x := u32 wdata).
  do 3 run_emit. run_when. run_emit.
  match goal with
  | |- context [bind (fmc_wait hw 100) ?f ?w] =>
      destruct (fmc_wait_run 100 w) as (b & wp & polls & Rp & Sp & Pp & Gp & Lp);
      rewrite (bind_ok _ f w b wp Rp); clear Rp
  end.
  destruct b.
  - run_read hw. rewrite U. run_when.
    destruct (c =? FMC_ISPCMD_READ) eqn:RD.
    + match goal with
      | |- context [bind (target_mem_read32 hw ?r) ?f ?w] =>
          destruct (read32_run hw r w) as (rd & wr & Rr & Sr & Ur);
          rewrite (bind_ok _ f w rd wr Rr)
      end.
      exists (Some rd), wr, polls, (fmc_tail c v rd).
      split; [reflexivity|]. split.
      { unfold fmc_tail. rewrite RD. steps_chain.
        rewrite <- !app_assoc. simpl. reflexivity. }
      split; [exact Pp|]. right. split; [exact Gp|].
      exists v, rd. auto.
    + match goal with |- context [ret None ?w] =>
        exists None, w, polls, (fmc_tail c v 0) end.
      split; [reflexivity|]. split.
      { unfold fmc_tail. rewrite RD. steps_chain.
        rewrite <- !app_assoc. simpl. rewrite ?app_nil_r. reflexivity. }
      split; [exact Pp|]. right. split; [exact Gp|].
      exists v, 0. auto.
  - exists None, wp, polls, [].
    split; [reflexivity|]. split.
    { steps_chain. rewrite <- !app_assoc. simpl. rewrite ?app_nil_r. reflexivity. }
    split; [exact Pp|]. left. auto.
Qed.

End Executor.

(** ** Projections of a trace *)

Lemma fmc_calls_app d1 d2 : fmc_calls (d1 ++ d2) = fmc_calls d1 ++ fmc_calls d2.
Proof.
  induction d1 as [|e d1 IH]; simpl; [reflexivity|].
  destruct e as [| | |[]| | |]; simpl; now rewrite IH.
Qed.

Lemma calls_of_app d1 d2 : calls_of (d1 ++ d2) = calls_of d1 ++ calls_of d2.
Proof.
  induction d1 as [|e d1 IH]; simpl; [reflexivity|].
  destruct e; simpl; now rewrite IH.
Qed.

Lemma reg_writes_app r d1 d2 :
  reg_writes r (d1 ++ d2) = reg_writes r d1 ++ reg_writes r d2.
Proof.
  induction d1 as [|e d1 IH]; simpl; [reflexivity|].
  destruct e; simpl; try now rewrite IH.
  destruct (addr =? r); simpl; now rewrite IH.
Qed.

Lemma poll_event_inv e :
  poll_event e = true ->
  (exists v, e = Rd NUMICRO_FLASH_ISPTRG v) \/ e = Delay 1.
Proof.
  destruct e; simpl; try discriminate; intros H; apply Z.eqb_eq in H; subst.
  - left. eexists. reflexivity.
  - right. reflexivity.
Qed.

(** The polling loop enters nothing, writes nothing, and reads the trigger
    register only. *)
Lemma polls_quiet polls :
  forallb poll_event polls = true ->
  fmc_calls polls = [] /\ calls_of polls = [] /\
  (forall r, reg_writes r polls = []) /\
  forallb command_regs_only polls = true /\
  existsb touches_sprom polls = false /\
  existsb is_write polls = false /\
  existsb (accesses NUMICRO_FLASH_ISPCON) polls = false /\
  existsb (accesses NUMICRO_FLASH_ISPDAT) polls = false.
Proof.
  induction polls as [|e polls IH]; simpl.
  - intros _. repeat split; reflexivity.
  - intros H. apply andb_prop in H. destruct H as [He Hp].
    destruct (IH Hp) as (I1 & I2 & I3 & I4 & I5 & I6 & I7 & I8).
    destruct (poll_event_inv e He) as [[v ->] | ->]; simpl;
      rewrite ?I1, ?I2, ?I4, ?I5, ?I6, ?I7, ?I8; repeat split; auto.
Qed.

Ltac split_events :=
  repeat (rewrite ?fmc_calls_app, ?calls_of_app, ?reg_writes_app,
           ?forallb_app, ?existsb_app; simpl).

Section EventsOfACommand.

Variables (c a x : Z) (d : list event).
Hypothesis shape : fmc_events c a x d.

Lemma fmc_events_calls :
  fmc_calls d = [(c, a, x)] /\ calls_of d = [Call_fmc_cmd c a x].
Proof.
  destruct shape as (polls & tail & -> & P & T).
  destruct (polls_quiet polls P) as (Q1 & Q2 & _).
  unfold fmc_head.
  destruct T as [(_ & -> & _) | (_ & s & v & _ & ->)]; unfold fmc_tail;
    destruct (c =? FMC_ISPCMD_WRITE); try destruct (Z.land s ISPCON_ISPFF =? 0);
    try destruct (c =? FMC_ISPCMD_READ);
    split_events; rewrite ?Q1, ?Q2; auto.
Qed.

Lemma fmc_events_writes :
  reg_writes NUMICRO_FLASH_ISPCMD d = [c] /\
  reg_writes NUMICRO_FLASH_ISPADR d = [a] /\
  reg_writes NUMICRO_FLASH_ISPTRG d = [ISPTRG_ISPGO] /\
  reg_writes NUMICRO_FLASH_ISPDAT d
  = (if c =? FMC_ISPCMD_WRITE then [x] else []).
Proof.
  destruct shape as (polls & tail & -> & P & T).
  destruct (polls_quiet polls P) as (_ & _ & Q3 & _).
  unfold fmc_head.
  destruct T as [(_ & -> & _) | (_ & s & v & _ & ->)]; unfold fmc_tail;
    destruct (c =? FMC_ISPCMD_WRITE); try destruct (Z.land s ISPCON_ISPFF =? 0);
    try destruct (c =? FMC_ISPCMD_READ);
    split_events; rewrite ?Q3; auto.
Qed.

Lemma fmc_events_frame : forallb write_frame d = true.
Proof.
  destruct shape as (polls & tail & -> & P & T).
  destruct (polls_quiet polls P) as (_ & _ & _ & Q4 & _).
  assert (Q : forallb write_frame polls = true).
  { rewrite forallb_forall in *. intros e He. specialize (Q4 e He).
    destruct e; auto. simpl in *. rewrite Q4. reflexivity. }
  unfold fmc_head.
  destruct T as [(_ & -> & _) | (_ & s & v & _ & ->)]; unfold fmc_tail;
    destruct (c =? FMC_ISPCMD_WRITE); try destruct (Z.land s ISPCON_ISPFF =? 0) eqn:F;
    try destruct (c =? FMC_ISPCMD_READ);
    split_events; rewrite ?Q, ?F; auto.
Qed.

Lemma fmc_events_sprom : in_sprom a = false -> existsb touches_sprom d = false.
Proof.
  intros A.
  destruct shape as (polls & tail & -> & P & T).
  destruct (polls_quiet polls P) as (_ & _ & _ & _ & Q5 & _).
  unfold fmc_head.
  destruct T as [(_ & -> & _) | (_ & s & v & _ & ->)]; unfold fmc_tail;
    destruct (c =? FMC_ISPCMD_WRITE); try destruct (Z.land s ISPCON_ISPFF =? 0);
    try destruct (c =? FMC_ISPCMD_READ);
    split_events; rewrite ?Q5, ?A; auto.
Qed.

End EventsOfACommand.

(** ** Runs of commands *)

Section RunsOfCommands.

Variable gap : list event.
Hypothesis gap_quiet :
  forallb (fun e => match e with Delay _ => true | _ => false end) gap = true.

Lemma gap_facts :
  fmc_calls gap = [] /\ calls_of gap = [] /\ (forall r, reg_writes r gap = []) /\
  forallb write_frame gap = true /\ existsb touches_sprom gap = false.
Proof.
  induction gap as [|e g IH]; simpl.
  - repeat split; reflexivity.
  - simpl in gap_quiet. destruct e; try discriminate.
    destruct (IH gap_quiet) as (I1 & I2 & I3 & I4 & I5). repeat split; auto.
Qed.

Lemma cmd_run_calls cs d :
  cmd_run gap cs d ->
  fmc_calls d = cs /\
  calls_of d = map (fun p => Call_fmc_cmd (fst (fst p)) (snd (fst p)) (snd p)) cs.
Proof.
  destruct gap_facts as (G1 & G2 & _).
  induction 1 as [|c a x d cs rest E _ [IH1 IH2]]; simpl; [auto|].
  destruct (fmc_events_calls c a x d E) as [E1 E2].
  rewrite !fmc_calls_app, !calls_of_app, E1, E2, G1, G2, IH1, IH2. auto.
Qed.

Lemma cmd_run_writes cs d :
  cmd_run gap cs d ->
  reg_writes NUMICRO_FLASH_ISPCMD d = map (fun p => fst (fst p)) cs /\
  reg_writes NUMICRO_FLASH_ISPADR d = map (fun p => snd (fst p)) cs /\
  reg_writes NUMICRO_FLASH_ISPTRG d = repeat ISPTRG_ISPGO (List.length cs) /\
  reg_writes NUMICRO_FLASH_ISPDAT d
  = flat_map (fun p => if fst (fst p) =? FMC_ISPCMD_WRITE then [snd p] else []) cs.
Proof.
  destruct gap_facts as (_ & _ & G3 & _).
  induction 1 as [|c a x d cs rest E _ (IH1 & IH2 & IH3 & IH4)]; simpl; [auto|].
  destruct (fmc_events_writes c a x d E) as (E1 & E2 & E3 & E4).
  rewrite !reg_writes_app, E1, E2, E3, E4, !G3, IH1, IH2, IH3, IH4.
  repeat split; reflexivity.
Qed.

Lemma cmd_run_frame cs d : cmd_run gap cs d -> forallb write_frame d = true.
Proof.
  destruct gap_facts as (_ & _ & _ & G4 & _).
  induction 1 as [|c a x d cs rest E _ IH]; simpl; [auto|].
  rewrite !forallb_app, (fmc_events_frame c a x d E), G4, IH. reflexivity.
Qed.

Lemma cmd_run_sprom cs d :
  cmd_run gap cs d ->
  forallb (fun p => negb (in_sprom (snd (fst p)))) cs = true ->
  existsb touches_sprom d = false.
Proof.
  destruct gap_facts as (_ & _ & _ & _ & G5).
  induction 1 as [|c a x d cs rest E _ IH]; simpl; [auto|].
  intros H. apply andb_prop in H. destruct H as [Ha Hcs].
  apply negb_true_iff in Ha.
  rewrite !existsb_app, (fmc_events_sprom c a x d E Ha), G5, (IH Hcs). reflexivity.
Qed.

End RunsOfCommands.

(** ** The primitives always return *)

Lemma size_bits_ge lp64 : 2 ^ 32 <= 2 ^ size_bits lp64.
Proof. destruct lp64; unfold size_bits; lia. Qed.

Lemma size_t_in lp64 x : 0 <= x < 2 ^ size_bits lp64 -> size_t lp64 x = x.
Proof. intros. unfold size_t. apply Z.mod_small. assumption. Qed.

Lemma size_t_small lp64 x : 0 <= x < 2 ^ 32 -> size_t lp64 x = x.
Proof. intros. apply size_t_in. pose proof (size_bits_ge lp64). lia. Qed.

Section Primitives.

Variable hw : list event -> Z -> Z.

Lemma fmc_cmd_events cmd addr wdata w :
  exists r w' d,
    nu_m032_fmc_cmd hw cmd addr wdata w = Ok r w' /\ steps w w' d /\
    fmc_events (u32 cmd) (u32 addr) (u32 wdata) d.
Proof.
  destruct (fmc_cmd_run hw cmd addr wdata w)
    as (r & w' & polls & tail & R & S & P & T).
  exists r, w', (fmc_head (u32 cmd) (u32 addr) (u32 wdata) ++ polls ++ tail).
  split; [exact R|]. split; [exact S|].
  exists polls, tail. split; [reflexivity|]. split; [exact P|].
  destruct T as [(G & E & _ & L) | (G & s & v & U & E & _)].
  - left. auto.
  - right. split; [exact G|]. exists s, v. auto.
Qed.

Lemma reg_unlock_run w :
  exists k w',
    nu_m032_reg_unlock hw w = Ok true w' /\
    steps w w' [ Enter Call_reg_unlock;
                 Wr NUMICRO_SYS_REGLCTL 0x59;
                 Wr NUMICRO_SYS_REGLCTL 0x16;
                 Wr NUMICRO_SYS_REGLCTL 0x88;
                 Rd NUMICRO_SYS_REGLCTL k ].
Proof.
  unfold nu_m032_reg_unlock, enter, target_mem_write32.
  change (u32 0x59) with 0x59. change (u32 0x16) with 0x16.
  change (u32 0x88) with 0x88.
  do 4 run_emit. run_read hw.
  exists v, w4. split.
  - destruct (v =? 0); reflexivity.
  - steps_chain.
Qed.

Lemma init_isp_run conf w :
  exists k x y w',
    nu_m032_init_isp hw conf w = Ok 0 w' /\
    steps w w' (init_events (u32 conf) k x y).
Proof.
  unfold nu_m032_init_isp. cbv zeta. unfold enter. run_emit.
  match goal with
  | |- context [bind (nu_m032_reg_unlock hw) ?f ?w1] =>
      destruct (reg_unlock_run w1) as (k & wu & Ru & Su);
      rewrite (bind_ok _ f w1 true wu Ru)
  end.
  change (negb true) with false. cbv iota. unfold target_mem_write32, platform_delay.
  run_read hw. do 2 run_emit. run_read hw. do 2 run_emit.
  exists k, v, v0. eexists. split; [reflexivity|].
  unfold init_events. steps_chain.
Qed.

End Primitives.

(** ** The loops *)

Lemma page_cmds_S cmd uAddr step n :
  page_cmds cmd uAddr step (S n)
  = (cmd, u32 uAddr, 0) :: page_cmds cmd (u32 (uAddr + step)) step n.
Proof.
  unfold page_cmds. cbn [seq map]. change (Z.of_nat 0) with 0.
  rewrite Z.mul_0_r, Z.add_0_r. f_equal.
  rewrite <- seq_shift, map_map. apply map_ext. intros i.
  rewrite u32_add_l.
  replace (uAddr + step * Z.of_nat (S i)) with (uAddr + step + step * Z.of_nat i)
    by lia.
  reflexivity.
Qed.

Lemma word_cmds_S uAddr x src n :
  word_cmds uAddr (x :: src) (S n)
  = (FMC_ISPCMD_WRITE, u32 uAddr, x) :: word_cmds (u32 (uAddr + 4)) src n.
Proof.
  unfold word_cmds. cbn [seq map nth]. change (Z.of_nat 0) with 0.
  rewrite Z.mul_0_r, Z.add_0_r. f_equal.
  rewrite <- seq_shift, map_map. apply map_ext. intros i. cbn [nth].
  rewrite u32_add_l.
  replace (uAddr + 4 * Z.of_nat (S i)) with (uAddr + 4 + 4 * Z.of_nat i) by lia.
  reflexivity.
Qed.

Section Loops.

Variable hw : list event -> Z -> Z.
Variable lp64 : bool.

Lemma size_t_step k n :
  0 < k -> k * Z.of_nat (S n) < 2 ^ size_bits lp64 ->
  size_t lp64 (k * Z.of_nat (S n) - k) = k * Z.of_nat n.
Proof. intros K B. rewrite size_t_in; lia. Qed.

Lemma erase_loop_run : forall (n fuel : nat) uAddr w,
  (n < fuel)%nat ->
  NUMICRO_PAGESIZE * Z.of_nat n < 2 ^ size_bits lp64 ->
  exists w' d,
    erase_loop hw lp64 fuel uAddr (NUMICRO_PAGESIZE * Z.of_nat n) w = Ok tt w' /\
    steps w w' d /\
    cmd_run [Delay 100] (page_cmds FMC_ISPCMD_ERASE uAddr NUMICRO_PAGESIZE n) d.
Proof.
  induction n as [|n IH]; intros fuel uAddr w F B.
  - exists w, []. destruct fuel; [lia|].
    split; [reflexivity|]. split; [apply steps_refl | constructor].
  - destruct fuel as [|k]; [lia|].
    cbn [erase_loop].
    replace (0 <? NUMICRO_PAGESIZE * Z.of_nat (S n)) with true
      by (symmetry; apply Z.ltb_lt; unfold NUMICRO_PAGESIZE; lia).
    destruct (fmc_cmd_events hw FMC_ISPCMD_ERASE uAddr 0 w)
      as (r & w1 & d1 & R1 & S1 & E1).
    rewrite (bind_ok _ _ _ _ _ R1). unfold platform_delay. run_emit.
    rewrite size_t_step by (unfold NUMICRO_PAGESIZE in *; lia).
    destruct (IH k (u32 (uAddr + NUMICRO_PAGESIZE)) w0) as (w' & d & R & S' & C);
      [lia | unfold NUMICRO_PAGESIZE in *; lia |].
    exists w', (d1 ++ [Delay 100] ++ d).
    split; [exact R|]. split; [steps_chain|].
    rewrite page_cmds_S. constructor; assumption.
Qed.

Lemma read_loop_run : forall (n fuel : nat) uAddr w,
  (n < fuel)%nat ->
  4 * Z.of_nat n < 2 ^ size_bits lp64 ->
  exists w' d,
    read_loop hw lp64 fuel uAddr (4 * Z.of_nat n) w = Ok tt w' /\
    steps w w' d /\
    cmd_run [] (page_cmds FMC_ISPCMD_READ uAddr 4 n) d.
Proof.
  induction n as [|n IH]; intros fuel uAddr w F B.
  - exists w, []. destruct fuel; [lia|].
    split; [reflexivity|]. split; [apply steps_refl | constructor].
  - destruct fuel as [|k]; [lia|].
    cbn [read_loop].
    replace (0 <? 4 * Z.of_nat (S n)) with true
      by (symmetry; apply Z.ltb_lt; lia).
    destruct (fmc_cmd_events hw FMC_ISPCMD_READ uAddr 0 w)
      as (r & w1 & d1 & R1 & S1 & E1).
    rewrite (bind_ok _ _ _ _ _ R1).
    rewrite size_t_step by lia.
    destruct (IH k (u32 (uAddr + 4)) w1) as (w' & d & R & S' & C);
      [lia | lia |].
    exists w', (d1 ++ [] ++ d).
    split; [exact R|]. split; [steps_chain|].
    rewrite page_cmds_S. constructor; assumption.
Qed.

Lemma write_loop_run : forall (n fuel : nat) uAddr src w,
  (n < fuel)%nat ->
  4 * Z.of_nat n < 2 ^ size_bits lp64 ->
  (n <= List.length src)%nat ->
  Forall (fun x => 0 <= x < 2 ^ 32) src ->
  exists w' d,
    write_loop hw lp64 fuel uAddr (4 * Z.of_nat n) src w = Ok tt w' /\
    steps w w' d /\
    cmd_run [Delay 10] (word_cmds uAddr src n) d.
Proof.
  induction n as [|n IH]; intros fuel uAddr src w F B L W.
  - exists w, []. destruct fuel; [lia|].
    split; [reflexivity|]. split; [apply steps_refl | constructor].
  - destruct fuel as [|k]; [lia|].
    destruct src as [|x src]; [simpl in L; lia|].
    cbn [write_loop].
    replace (0 <? 4 * Z.of_nat (S n)) with true
      by (symmetry; apply Z.ltb_lt; lia).
    destruct (fmc_cmd_events hw FMC_ISPCMD_WRITE uAddr (u32 x) w)
      as (r & w1 & d1 & R1 & S1 & E1).
    rewrite (bind_ok _ _ _ _ _ R1). unfold platform_delay. run_emit.
    rewrite size_t_step by lia.
    inversion W as [|? ? Wx Ws]; subst.
    rewrite u32_idem, (u32_small x Wx) in E1.
    destruct (IH k (u32 (uAddr + 4)) src w0) as (w' & d & R & S' & C);
      [lia | lia | simpl in L; lia | exact Ws |].
    exists w', (d1 ++ [Delay 10] ++ d).
    split; [exact R|]. split; [steps_chain|].
    rewrite word_cmds_S. constructor; assumption.
Qed.

(** Whatever the length, the buffer and the budget: what the write loop
    has done when it returns or is cut off is a run of write commands,
    each followed by the 10 ms delay. *)
Lemma write_loop_frame : forall (fuel : nat) uAddr szSize src w,
  exists cs d,
    steps w (final (write_loop hw lp64 fuel uAddr szSize src w)) d /\
    cmd_run [Delay 10] cs d /\
    forallb (fun c => fst (fst c) =? FMC_ISPCMD_WRITE) cs = true.
Proof.
  induction fuel as [|k IH]; intros uAddr szSize src w.
  - exists [], []. split; [|split; [constructor | reflexivity]].
    simpl. destruct (0 <? szSize); apply steps_refl.
  - cbn [write_loop]. destruct (0 <? szSize).
    + destruct src as [|x src].
      * exists [], []. split; [apply steps_refl|].
        split; [constructor | reflexivity].
      * destruct (fmc_cmd_events hw FMC_ISPCMD_WRITE uAddr (u32 x) w)
          as (r & w1 & d1 & R1 & S1 & E1).
        rewrite (bind_ok _ _ _ _ _ R1). unfold platform_delay. run_emit.
        destruct (IH (u32 (uAddr + 4)) (size_t lp64 (szSize - 4)) src w0)
          as (cs & d & S' & C & Fd).
        exists ((u32 FMC_ISPCMD_WRITE, u32 uAddr, u32 (u32 x)) :: cs),
               (d1 ++ [Delay 10] ++ d).
        split; [steps_chain|]. split; [constructor; assumption|].
        cbn [forallb fst]. rewrite Fd. reflexivity.
    + exists [], []. split; [apply steps_refl|].
      split; [constructor | reflexivity].
Qed.

End Loops.

(** * The command executor *)

Lemma fmc_head_quiet c a x :
  existsb go_clear (fmc_head c a x) = false /\
  existsb (accesses NUMICRO_FLASH_ISPCON) (fmc_head c a x) = false /\
  existsb (is_read_of NUMICRO_FLASH_ISPDAT) (fmc_head c a x) = false /\
  existsb (is_write_to NUMICRO_FLASH_ISPDAT) (fmc_head c a x)
  = (c =? FMC_ISPCMD_WRITE).
Proof.
  unfold fmc_head. destruct (c =? FMC_ISPCMD_WRITE); simpl; auto.
Qed.

Lemma polls_reads polls :
  forallb poll_event polls = true ->
  existsb (is_read_of NUMICRO_FLASH_ISPDAT) polls = false /\
  existsb (is_write_to NUMICRO_FLASH_ISPDAT) polls = false /\
  forallb (fun e => negb (is_write e) || is_write_to NUMICRO_FLASH_ISPCON e)
          polls = true.
Proof.
  induction polls as [|e polls IH]; simpl; [auto|].
  intros H. apply andb_prop in H. destruct H as [He Hp].
  destruct (IH Hp) as (I1 & I2 & I3).
  destruct (poll_event_inv e He) as [[v ->] | ->]; simpl;
    rewrite ?I1, ?I2, ?I3; auto.
Qed.

(** C6. For every call of the executor, with any opcode, the trace grows
    by: the opcode written to the command register, then the address
    written to the address register, then -- exactly when the opcode is
    "write" -- the payload written to the data register, then the go bit
    written to the trigger register, then the rest.  In the rest no
    register but the ISP control register is written.  Over the whole call
    the data register is written iff the opcode is "write", and it is read
    iff the opcode is "read" and a poll found the go bit clear. *)
Theorem fmc_cmd_register_order
  (hw : list event -> Z -> Z) (cmd addr wdata : Z) (w : world) :
  exists r w' d rest,
    nu_m032_fmc_cmd hw cmd addr wdata w = Ok r w' /\
    trace w' = trace w ++ d /\
    d = Enter (Call_fmc_cmd (u32 cmd) (u32 addr) (u32 wdata))
        :: Wr NUMICRO_FLASH_ISPCMD (u32 cmd)
        :: Wr NUMICRO_FLASH_ISPADR (u32 addr)
        :: (if u32 cmd =? FMC_ISPCMD_WRITE
            then [Wr NUMICRO_FLASH_ISPDAT (u32 wdata)] else [])
        ++ Wr NUMICRO_FLASH_ISPTRG ISPTRG_ISPGO :: rest /\
    forallb (fun e => negb (is_write e) || is_write_to NUMICRO_FLASH_ISPCON e)
            rest = true /\
    existsb (is_write_to NUMICRO_FLASH_ISPDAT) d
    = (u32 cmd =? FMC_ISPCMD_WRITE) /\
    existsb (is_read_of NUMICRO_FLASH_ISPDAT) d
    = (u32 cmd =? FMC_ISPCMD_READ) && existsb go_clear d.
Proof.
  destruct (fmc_cmd_run hw cmd addr wdata w)
    as (r & w' & polls & tail & R & (T & _) & P & C).
  exists r, w', (fmc_head (u32 cmd) (u32 addr) (u32 wdata) ++ polls ++ tail),
         (polls ++ tail).
  destruct (polls_reads polls P) as (P1 & P2 & P3).
  destruct (fmc_head_quiet (u32 cmd) (u32 addr) (u32 wdata)) as (H1 & _ & H3 & H4).
  split; [exact R|]. split; [exact T|].
  split.
  { unfold fmc_head. simpl. rewrite <- app_assoc. reflexivity. }
  rewrite !existsb_app, forallb_app, H1, H3, H4, P1, P2, P3.
  destruct C as [(G & -> & _) | (G & s & v & U & -> & _)]; rewrite G.
  - simpl. rewrite andb_false_r, orb_false_r. auto.
  - unfold fmc_tail.
    destruct (Z.land s ISPCON_ISPFF =? 0);
      destruct (u32 cmd =? FMC_ISPCMD_READ); simpl;
      rewrite ?orb_false_r; auto.
Qed.

Lemma fmc_tail_quiet c s v :
  existsb go_clear (fmc_tail c s v) = false /\
  List.length (filter (is_read_of NUMICRO_FLASH_ISPTRG) (fmc_tail c s v)) = 0%nat.
Proof.
  unfold fmc_tail.
  destruct (Z.land s ISPCON_ISPFF =? 0); destruct (c =? FMC_ISPCMD_READ);
    simpl; auto.
Qed.

Lemma fmc_head_no_poll c a x :
  List.length (filter (is_read_of NUMICRO_FLASH_ISPTRG) (fmc_head c a x)) = 0%nat.
Proof. unfold fmc_head. destruct (c =? FMC_ISPCMD_WRITE); reflexivity. Qed.

(** C1, as the code has it.  When a poll finds the go bit clear, the
    executor then reads the ISP control register once and, exactly when the
    fail flag is set in the value read, writes that value back; it touches
    the register nowhere else.  When all 101 polls find the go bit set, the
    executor returns without any access to the ISP control register. *)
Theorem fmc_cmd_flag_clear
  (hw : list event -> Z -> Z) (cmd addr wdata : Z) (w : world) :
  exists r w' d,
    nu_m032_fmc_cmd hw cmd addr wdata w = Ok r w' /\
    trace w' = trace w ++ d /\
    if existsb go_clear d
    then exists before status after,
        d = before
            ++ Rd NUMICRO_FLASH_ISPCON status
            :: (if Z.land status ISPCON_ISPFF =? 0 then []
                else [Wr NUMICRO_FLASH_ISPCON status])
            ++ after /\
        existsb go_clear before = true /\
        existsb (accesses NUMICRO_FLASH_ISPCON) before = false /\
        existsb (accesses NUMICRO_FLASH_ISPCON) after = false
    else
      existsb (accesses NUMICRO_FLASH_ISPCON) d = false /\
      List.length (filter (is_read_of NUMICRO_FLASH_ISPTRG) d) = 101%nat /\
      r = None.
Proof.
  destruct (fmc_cmd_run hw cmd addr wdata w)
    as (r & w' & polls & tail & R & (T & _) & P & C).
  exists r, w', (fmc_head (u32 cmd) (u32 addr) (u32 wdata) ++ polls ++ tail).
  destruct (polls_quiet polls P) as (_ & _ & _ & _ & _ & _ & Q7 & _).
  destruct (fmc_head_quiet (u32 cmd) (u32 addr) (u32 wdata)) as (H1 & H2 & _).
  split; [exact R|]. split; [exact T|].
  destruct C as [(G & -> & Rn & L) | (G & s & v & U & -> & _)].
  - rewrite app_nil_r, !existsb_app, H1, H2, G, Q7. cbn [orb].
    rewrite filter_app, length_app, fmc_head_no_poll, L. auto.
  - destruct (fmc_tail_quiet (u32 cmd) s v) as (T1 & _).
    rewrite !existsb_app, H1, G, T1. cbn [orb].
    exists (fmc_head (u32 cmd) (u32 addr) (u32 wdata) ++ polls), s,
           (if u32 cmd =? FMC_ISPCMD_READ
            then [Rd NUMICRO_FLASH_ISPDAT v] else []).
    split; [unfold fmc_tail; rewrite <- app_assoc; reflexivity|].
    rewrite !existsb_app, H1, H2, G, Q7.
    destruct (u32 cmd =? FMC_ISPCMD_READ); auto.
Qed.

(** C1 fails as stated: on a device that stays busy (and shows the fail
    flag in its ISP control register) the executor polls 101 times and
    returns; the ISP control register is neither read nor written. *)
Lemma fmc_cmd_timeout_skips_ispcon :
  let r := nu_m032_fmc_cmd hw_stuck FMC_ISPCMD_ERASE 0x200 0 w_boot in
  value r = Some None /\
  List.length (filter (is_read_of NUMICRO_FLASH_ISPTRG) (trace (final r)))
  = 101%nat /\
  Z.land (hw_stuck (trace (final r)) NUMICRO_FLASH_ISPCON) ISPCON_ISPFF
  = ISPCON_ISPFF /\
  existsb (is_read_of NUMICRO_FLASH_ISPCON) (trace (final r)) = false /\
  existsb (is_write_to NUMICRO_FLASH_ISPCON) (trace (final r)) = false.
Proof. vm_compute. repeat split; reflexivity. Qed.

(** * The flash programmer *)

Lemma init_events_facts conf k x y :
  fmc_calls (init_events conf k x y) = [] /\
  calls_of (init_events conf k x y) = [Call_init_isp conf; Call_reg_unlock] /\
  reg_writes NUMICRO_FLASH_ISPCMD (init_events conf k x y) = [] /\
  reg_writes NUMICRO_FLASH_ISPADR (init_events conf k x y) = [] /\
  reg_writes NUMICRO_FLASH_ISPTRG (init_events conf k x y) = [] /\
  reg_writes NUMICRO_FLASH_ISPDAT (init_events conf k x y) = [] /\
  reg_writes NUMICRO_FLASH_ISPCON (init_events conf k x y)
  = [u32 (Z.lor y (Z.lor (Z.lor ISPCON_ISPFF ISPCON_ISPEN) conf))] /\
  existsb touches_sprom (init_events conf k x y)
  = negb (Z.land conf ISPCON_SPUEN =? 0).
Proof.
  unfold init_events. cbn [fmc_calls calls_of reg_writes existsb touches_sprom].
  repeat split; try reflexivity.
  rewrite !orb_false_r. reflexivity.
Qed.

Lemma page_cmds_u32 cmd uAddr step n :
  page_cmds cmd (u32 uAddr) step n = page_cmds cmd uAddr step n.
Proof.
  unfold page_cmds. apply map_ext. intros i. now rewrite u32_add_l.
Qed.

Lemma word_cmds_u32 uAddr src n :
  word_cmds (u32 uAddr) src n = word_cmds uAddr src n.
Proof.
  unfold word_cmds. apply map_ext. intros i. now rewrite u32_add_l.
Qed.

Lemma page_cmds_proj cmd uAddr step n :
  map (fun p => fst (fst p)) (page_cmds cmd uAddr step n) = repeat cmd n /\
  map (fun p => snd (fst p)) (page_cmds cmd uAddr step n)
  = map (fun i => u32 (uAddr + step * Z.of_nat i)) (seq 0 n) /\
  List.length (page_cmds cmd uAddr step n) = n.
Proof.
  unfold page_cmds. rewrite !map_map, length_map, length_seq. cbn [fst snd].
  rewrite map_const, length_seq. auto.
Qed.

Lemma nth_seq_firstn (src : list Z) : forall n,
  (n <= List.length src)%nat ->
  map (fun i => nth i src 0) (seq 0 n) = firstn n src.
Proof.
  induction src as [|x src IH]; intros [|n] L; simpl in *; try reflexivity; try lia.
  f_equal. rewrite <- seq_shift, map_map. apply IH. lia.
Qed.

Lemma word_cmds_proj uAddr src n :
  map (fun p => fst (fst p)) (word_cmds uAddr src n) = repeat FMC_ISPCMD_WRITE n /\
  map (fun p => snd (fst p)) (word_cmds uAddr src n)
  = map (fun i => u32 (uAddr + 4 * Z.of_nat i)) (seq 0 n) /\
  List.length (word_cmds uAddr src n) = n /\
  flat_map (fun p => if fst (fst p) =? FMC_ISPCMD_WRITE then [snd p] else [])
           (word_cmds uAddr src n)
  = map (fun i => nth i src 0) (seq 0 n).
Proof.
  unfold word_cmds. rewrite !map_map, length_map, length_seq. cbn [fst snd].
  rewrite map_const, length_seq. repeat split; auto.
  generalize (seq 0 n). intros l.
  induction l as [|i l IH]; [reflexivity|].
  cbn [map flat_map fst snd]. rewrite IH. reflexivity.
Qed.

Lemma exact_multiple len k :
  0 < k -> 0 <= len -> len mod k = 0 ->
  len = k * Z.of_nat (Z.to_nat (len / k)).
Proof.
  intros K L M. rewrite Z2Nat.id by (apply Z.div_pos; lia).
  apply Z.div_exact; lia.
Qed.

(** C3. An erase of [len] bytes at [addr], [len] a multiple of the page
    size, returns 0 after exactly [len / 512] commands, all of them erase
    commands with payload 0, on the addresses [addr], [addr + 512],
    [addr + 2 * 512], ... in this order (32-bit address arithmetic, which
    is plain arithmetic as long as [addr + len] does not pass 2^32).  The
    command, address and trigger registers receive exactly these values. *)
Theorem flash_erase_page_sequence
  (hw : list event -> Z -> Z) (lp64 : bool)
  (fuel : nat) (addr len : Z) (w : world) :
  0 <= len < 2 ^ size_bits lp64 ->
  len mod NUMICRO_PAGESIZE = 0 ->
  (Z.to_nat (len / NUMICRO_PAGESIZE) < fuel)%nat ->
  exists w' d,
    nu_m032_flash_erase hw lp64 fuel addr len w = Ok 0 w' /\
    trace w' = trace w ++ d /\
    List.length (fmc_calls d) = Z.to_nat (len / NUMICRO_PAGESIZE) /\
    fmc_calls d
    = map (fun i => (FMC_ISPCMD_ERASE,
                     u32 (addr + NUMICRO_PAGESIZE * Z.of_nat i), 0))
          (seq 0 (Z.to_nat (len / NUMICRO_PAGESIZE))) /\
    reg_writes NUMICRO_FLASH_ISPCMD d
    = repeat FMC_ISPCMD_ERASE (Z.to_nat (len / NUMICRO_PAGESIZE)) /\
    reg_writes NUMICRO_FLASH_ISPADR d
    = map (fun i => u32 (addr + NUMICRO_PAGESIZE * Z.of_nat i))
          (seq 0 (Z.to_nat (len / NUMICRO_PAGESIZE))) /\
    reg_writes NUMICRO_FLASH_ISPTRG d
    = repeat ISPTRG_ISPGO (Z.to_nat (len / NUMICRO_PAGESIZE)) /\
    (0 <= addr -> addr + len <= 2 ^ 32 ->
     forall i, (i < Z.to_nat (len / NUMICRO_PAGESIZE))%nat ->
       u32 (addr + NUMICRO_PAGESIZE * Z.of_nat i)
       = addr + NUMICRO_PAGESIZE * Z.of_nat i).
Proof.
  intros B Mo F.
  set (n := Z.to_nat (len / NUMICRO_PAGESIZE)) in *.
  assert (E : len = NUMICRO_PAGESIZE * Z.of_nat n)
    by (apply exact_multiple; unfold NUMICRO_PAGESIZE in *; lia).
  unfold nu_m032_flash_erase.
  destruct (init_isp_run hw (Z.lor ISPCON_APUEN ISPCON_LDUEN) w)
    as (k & x & y & w1 & R1 & S1).
  rewrite (bind_ok _ _ _ _ _ R1). change (negb (0 =? 0)) with false. cbv iota.
  rewrite (size_t_in lp64 len B), E.
  destruct (erase_loop_run hw lp64 n fuel (u32 addr) w1) as (w2 & d & R2 & S2 & C);
    [exact F | rewrite <- E; lia |].
  rewrite (bind_ok _ _ _ _ _ R2).
  rewrite page_cmds_u32 in C.
  exists w2, (init_events (u32 (Z.lor ISPCON_APUEN ISPCON_LDUEN)) k x y ++ d).
  destruct (init_events_facts (u32 (Z.lor ISPCON_APUEN ISPCON_LDUEN)) k x y)
    as (I1 & _ & I3 & I4 & I5 & _).
  destruct (cmd_run_calls [Delay 100] eq_refl _ _ C) as (C1 & _).
  destruct (cmd_run_writes [Delay 100] eq_refl _ _ C) as (W1 & W2 & W3 & _).
  destruct (page_cmds_proj FMC_ISPCMD_ERASE addr NUMICRO_PAGESIZE n)
    as (P1 & P2 & P3).
  split; [reflexivity|].
  split; [destruct (steps_trans _ _ _ _ _ S1 S2) as (T & _); exact T|].
  rewrite fmc_calls_app, !reg_writes_app, I1, I3, I4, I5, C1, W1, W2, W3.
  cbn [app]. rewrite P1, P2, P3. unfold page_cmds.
  repeat split; try reflexivity.
  intros A0 A1 i Hi. apply u32_small. unfold NUMICRO_PAGESIZE in *. lia.
Qed.

(** C4. A write of [len] bytes, [len] a multiple of 4, from a buffer that
    holds at least [len / 4] words returns 0 after exactly [len / 4]
    commands, all of them write commands; the payload of the i-th command
    is the i-th word of the buffer and its address is [dest + 4 * i]
    (32-bit address arithmetic).  The command, address, data and trigger
    registers receive exactly these values. *)
Theorem flash_write_word_sequence
  (hw : list event -> Z -> Z) (lp64 : bool)
  (fuel : nat) (dest : Z) (src : list Z) (len : Z) (w : world) :
  0 <= len < 2 ^ size_bits lp64 ->
  len mod 4 = 0 ->
  (Z.to_nat (len / 4) <= List.length src)%nat ->
  Forall (fun x => 0 <= x < 2 ^ 32) src ->
  (Z.to_nat (len / 4) < fuel)%nat ->
  exists w' d,
    nu_m032_flash_write hw lp64 fuel dest src len w = Ok 0 w' /\
    trace w' = trace w ++ d /\
    List.length (fmc_calls d) = Z.to_nat (len / 4) /\
    fmc_calls d
    = map (fun i => (FMC_ISPCMD_WRITE, u32 (dest + 4 * Z.of_nat i), nth i src 0))
          (seq 0 (Z.to_nat (len / 4))) /\
    reg_writes NUMICRO_FLASH_ISPCMD d
    = repeat FMC_ISPCMD_WRITE (Z.to_nat (len / 4)) /\
    reg_writes NUMICRO_FLASH_ISPADR d
    = map (fun i => u32 (dest + 4 * Z.of_nat i)) (seq 0 (Z.to_nat (len / 4))) /\
    reg_writes NUMICRO_FLASH_ISPDAT d = firstn (Z.to_nat (len / 4)) src /\
    reg_writes NUMICRO_FLASH_ISPTRG d
    = repeat ISPTRG_ISPGO (Z.to_nat (len / 4)).
Proof.
  intros B Mo L W F.
  set (n := Z.to_nat (len / 4)) in *.
  assert (E : len = 4 * Z.of_nat n) by (apply exact_multiple; lia).
  unfold nu_m032_flash_write.
  rewrite (size_t_in lp64 len B), E.
  destruct (write_loop_run hw lp64 n fuel (u32 dest) src w)
    as (w1 & d & R & S & C); [exact F | rewrite <- E; lia | exact L | exact W |].
  rewrite (bind_ok _ _ _ _ _ R).
  rewrite word_cmds_u32 in C.
  exists w1, d.
  destruct (cmd_run_calls [Delay 10] eq_refl _ _ C) as (C1 & _).
  destruct (cmd_run_writes [Delay 10] eq_refl _ _ C) as (W1 & W2 & W3 & W4).
  destruct (word_cmds_proj dest src n) as (P1 & P2 & P3 & P4).
  split; [reflexivity|]. split; [destruct S as (T & _); exact T|].
  rewrite C1, W1, W2, W3, W4, P1, P2, P3, P4, (nth_seq_firstn src n L).
  unfold word_cmds. repeat split; reflexivity.
Qed.

Lemma write_frame_consequences d :
  forallb write_frame d = true ->
  forallb (fun c => match c with Call_fmc_cmd _ _ _ => true | _ => false end)
          (calls_of d) = true /\
  (forall r, isp_command_reg r = false -> r <> NUMICRO_FLASH_ISPCON ->
             reg_writes r d = []) /\
  forallb (fun v => negb (Z.land v ISPCON_ISPFF =? 0))
          (reg_writes NUMICRO_FLASH_ISPCON d) = true.
Proof.
  induction d as [|e d IH]; intros H.
  - repeat split; reflexivity.
  - cbn [forallb] in H. apply andb_prop in H. destruct H as [He Hd].
    destruct (IH Hd) as (I1 & I2 & I3).
    destruct e as [a v|a v|ms|[| |c a x]| | |]; cbn [calls_of reg_writes forallb];
      try discriminate; rewrite ?I1; repeat split; auto.
    + intros r Hr Hn. cbn [write_frame] in He.
      destruct (a =? r) eqn:Ear; [|auto].
      apply Z.eqb_eq in Ear. subst a. rewrite Hr in He. cbn [orb] in He.
      apply andb_prop in He. destruct He as [He _].
      apply Z.eqb_eq in He. contradiction.
    + cbn [write_frame] in He.
      destruct (a =? NUMICRO_FLASH_ISPCON) eqn:Ea; [|exact I3].
      cbn [forallb]. rewrite I3, andb_true_r.
      apply Z.eqb_eq in Ea. subst a.
      change (isp_command_reg NUMICRO_FLASH_ISPCON) with false in He.
      cbn [orb andb] in He.
      change (NUMICRO_FLASH_ISPCON =? NUMICRO_FLASH_ISPCON) with true in He.
      exact He.
Qed.

Lemma erase_loop_steps (hw : list event -> Z -> Z) (lp64 : bool) :
  forall (fuel : nat) uAddr szSize w,
  exists d, steps w (final (erase_loop hw lp64 fuel uAddr szSize w)) d.
Proof.
  induction fuel as [|k IH]; intros uAddr szSize w.
  - exists []. simpl. destruct (0 <? szSize); apply steps_refl.
  - cbn [erase_loop]. destruct (0 <? szSize).
    + destruct (fmc_cmd_events hw FMC_ISPCMD_ERASE uAddr 0 w)
        as (r & w1 & d1 & R1 & S1 & E1).
      rewrite (bind_ok _ _ _ _ _ R1). unfold platform_delay. run_emit.
      destruct (IH (u32 (uAddr + NUMICRO_PAGESIZE))
                   (size_t lp64 (szSize - NUMICRO_PAGESIZE)) w0) as (d & S').
      exists (d1 ++ [Delay 100] ++ d). steps_chain.
    + exists []. apply steps_refl.
Qed.

Lemma final_bind_ret {A B : Type} (m : M A) (b : B) w :
  final (bind m (fun _ => ret b) w) = final (m w).
Proof. unfold bind. destruct (m w); reflexivity. Qed.

(** C10, as the code has it.  Whatever the destination, the buffer, the
    length and the point the run has reached: what a flash write has done
    is a run of write commands, each followed by a 10 ms delay.  It never
    enters the register unlocker or the engine initializer, never writes
    the lock-control or the clock-gate register, and writes the four
    command registers only -- and the ISP control register, which it is
    given only values that have the fail flag set (the write-back of the
    executor).  A flash erase begins with the whole initializer
    sequence. *)
Theorem flash_write_frame (hw : list event -> Z -> Z) (lp64 : bool) :
  (forall (fuel : nat) (dest : Z) (src : list Z) (len : Z) (w : world),
    exists cs d,
      trace (final (nu_m032_flash_write hw lp64 fuel dest src len w))
      = trace w ++ d /\
      cmd_run [Delay 10] cs d /\
      forallb (fun c => fst (fst c) =? FMC_ISPCMD_WRITE) cs = true /\
      forallb write_frame d = true /\
      forallb (fun c => match c with Call_fmc_cmd _ _ _ => true | _ => false end)
              (calls_of d) = true /\
      reg_writes NUMICRO_SYS_REGLCTL d = [] /\
      reg_writes NUMICRO_SYSCLK_AHBCLK d = [] /\
      forallb (fun v => negb (Z.land v ISPCON_ISPFF =? 0))
              (reg_writes NUMICRO_FLASH_ISPCON d) = true) /\
  (forall (fuel : nat) (addr len : Z) (w : world),
    exists k x y rest,
      trace (final (nu_m032_flash_erase hw lp64 fuel addr len w))
      = trace w ++ init_events (Z.lor ISPCON_APUEN ISPCON_LDUEN) k x y ++ rest).
Proof.
  split.
  - intros fuel dest src len w. unfold nu_m032_flash_write.
    rewrite final_bind_ret.
    destruct (write_loop_frame hw lp64 fuel (u32 dest) (size_t lp64 len) src w)
      as (cs & d & (T & _) & C & Fc).
    assert (Fd := cmd_run_frame [Delay 10] eq_refl cs d C).
    destruct (write_frame_consequences d Fd) as (Q1 & Q2 & Q3).
    exists cs, d. repeat split; auto; apply Q2; reflexivity || discriminate.
  - intros fuel addr len w. unfold nu_m032_flash_erase.
    destruct (init_isp_run hw (Z.lor ISPCON_APUEN ISPCON_LDUEN) w)
      as (k & x & y & w1 & R1 & S1).
    rewrite (bind_ok _ _ _ _ _ R1). change (negb (0 =? 0)) with false. cbv iota.
    rewrite final_bind_ret.
    destruct (erase_loop_steps hw lp64 fuel (u32 addr) (size_t lp64 len) w1)
      as (d & S2).
    exists k, x, y, d.
    destruct (steps_trans _ _ _ _ _ S1 S2) as (T & _). exact T.
Qed.

(** C10 fails as stated: on a device that raises the fail flag, a flash
    write of one word writes the ISP control register as well. *)
Lemma flash_write_writes_ispcon :
  let r := nu_m032_flash_write hw_ff false 2 0x100 [0xDEADBEEF] 4 w_boot in
  value r = Some 0 /\
  reg_writes NUMICRO_FLASH_ISPCON (trace (final r)) = [0x40] /\
  isp_command_reg NUMICRO_FLASH_ISPCON = false /\
  forallb command_regs_only (trace (final r)) = false.
Proof. vm_compute. repeat split; reflexivity. Qed.

(** * The maintenance commands *)

Section Maintenance.

Variable hw : list event -> Z -> Z.
Variable lp64 : bool.

(** The common body of the three region erases: initialize with [conf],
    then erase [n] pages from [base]. *)
Lemma erase_region_run (fuel : nat) (conf base size : Z) (n : nat) (w : world) :
  (n < fuel)%nat ->
  size = NUMICRO_PAGESIZE * Z.of_nat n ->
  size < 2 ^ 32 ->
  exists k x y d w',
    (retval <- nu_m032_init_isp hw conf ;;
     if negb (retval =? 0) then ret false
     else erase_loop hw lp64 fuel base (size_t lp64 size) ;; ret true) w
    = Ok true w' /\
    steps w w' (init_events (u32 conf) k x y ++ d) /\
    cmd_run [Delay 100] (page_cmds FMC_ISPCMD_ERASE base NUMICRO_PAGESIZE n) d.
Proof.
  intros F E B.
  destruct (init_isp_run hw conf w) as (k & x & y & w1 & R1 & S1).
  rewrite (bind_ok _ _ _ _ _ R1). change (negb (0 =? 0)) with false. cbv iota.
  rewrite size_t_small by (unfold NUMICRO_PAGESIZE in *; lia).
  rewrite E.
  destruct (erase_loop_run hw lp64 n fuel base w1) as (w2 & d & R2 & S2 & C);
    [exact F | pose proof (size_bits_ge lp64); lia |].
  rewrite (bind_ok _ _ _ _ _ R2).
  exists k, x, y, d, w2. split; [reflexivity|]. split; [|exact C].
  eapply steps_trans; eassumption.
Qed.

Lemma cmd_erase_aprom_run (fuel : nat) (w : world) :
  (128 < fuel)%nat ->
  exists k x y d w',
    nu_m032_cmd_erase_aprom hw lp64 fuel w = Ok true w' /\
    steps w w' (init_events ISPCON_APUEN k x y ++ d) /\
    cmd_run [Delay 100]
      (page_cmds FMC_ISPCMD_ERASE NUMICRO_APROM_BASE NUMICRO_PAGESIZE 128) d.
Proof.
  intros F. apply (erase_region_run fuel ISPCON_APUEN); [exact F| |]; reflexivity.
Qed.

Lemma cmd_erase_ldrom_run (fuel : nat) (w : world) :
  (4 < fuel)%nat ->
  exists k x y d w',
    nu_m032_cmd_erase_ldrom hw lp64 fuel w = Ok true w' /\
    steps w w' (init_events ISPCON_LDUEN k x y ++ d) /\
    cmd_run [Delay 100]
      (page_cmds FMC_ISPCMD_ERASE NUMICRO_LDROM_BASE NUMICRO_PAGESIZE 4) d.
Proof.
  intros F. apply (erase_region_run fuel ISPCON_LDUEN); [exact F| |]; reflexivity.
Qed.

Lemma cmd_erase_sprom_run (fuel : nat) (w : world) :
  (1 < fuel)%nat ->
  exists k x y d w',
    nu_m032_cmd_erase_sprom hw lp64 fuel w = Ok true w' /\
    steps w w' (init_events ISPCON_SPUEN k x y ++ d) /\
    cmd_run [Delay 100]
      (page_cmds FMC_ISPCMD_ERASE NUMICRO_SPROM_BASE NUMICRO_PAGESIZE 1) d.
Proof.
  intros F. apply (erase_region_run fuel ISPCON_SPUEN); [exact F| |]; reflexivity.
Qed.

Lemma cmd_erase_chip_run (w : world) :
  exists k x y d w',
    nu_m032_cmd_erase_chip hw w = Ok true w' /\
    steps w w'
      (init_events (Z.lor (Z.lor ISPCON_APUEN ISPCON_LDUEN) ISPCON_SPUEN) k x y
       ++ d ++ [Delay 100]) /\
    fmc_events FMC_ISPCMD_CHIPERASE 0 0 d.
Proof.
  unfold nu_m032_cmd_erase_chip.
  destruct (init_isp_run hw (Z.lor (Z.lor ISPCON_APUEN ISPCON_LDUEN) ISPCON_SPUEN) w)
    as (k & x & y & w1 & R1 & S1).
  rewrite (bind_ok _ _ _ _ _ R1). change (negb (0 =? 0)) with false. cbv iota.
  destruct (fmc_cmd_events hw FMC_ISPCMD_CHIPERASE 0 0 w1)
    as (r & w2 & d & R2 & S2 & E2).
  rewrite (bind_ok _ _ _ _ _ R2). unfold platform_delay. run_emit.
  exists k, x, y, d, w0. split; [reflexivity|]. split; [|exact E2].
  steps_chain.
Qed.

End Maintenance.

(** C5. With budget for the 128 pages of the main region, the mass erase
    returns in the very world that erase-main followed by erase-loader
    reach: the three traces are the same sequence.  That sequence
    initializes with the main-region unlock bit, erases the 128 pages of
    the main region, initializes with the loader unlock bit and erases the
    4 pages of the loader region; none of its events touches the security
    region. *)
Theorem erase_mass_is_aprom_then_ldrom
  (hw : list event -> Z -> Z) (lp64 : bool) (fuel : nat) (w : world) :
  (128 < fuel)%nat ->
  exists w1 w2 d1 d2,
    nu_m032_cmd_erase_aprom hw lp64 fuel w = Ok true w1 /\
    trace w1 = trace w ++ d1 /\
    nu_m032_cmd_erase_ldrom hw lp64 fuel w1 = Ok true w2 /\
    trace w2 = trace w1 ++ d2 /\
    nu_m032_cmd_erase_mass hw lp64 fuel w = Ok true w2 /\
    calls_of (d1 ++ d2)
    = Call_init_isp ISPCON_APUEN :: Call_reg_unlock
      :: map (fun i => Call_fmc_cmd FMC_ISPCMD_ERASE
                         (NUMICRO_APROM_BASE + NUMICRO_PAGESIZE * Z.of_nat i) 0)
             (seq 0 128)
      ++ Call_init_isp ISPCON_LDUEN :: Call_reg_unlock
      :: map (fun i => Call_fmc_cmd FMC_ISPCMD_ERASE
                         (NUMICRO_LDROM_BASE + NUMICRO_PAGESIZE * Z.of_nat i) 0)
             (seq 0 4) /\
    existsb touches_sprom (d1 ++ d2) = false.
Proof.
  intros F.
  destruct (cmd_erase_aprom_run hw lp64 fuel w F)
    as (k1 & x1 & y1 & e1 & w1 & R1 & (T1 & _) & C1).
  destruct (cmd_erase_ldrom_run hw lp64 fuel w1)
    as (k2 & x2 & y2 & e2 & w2 & R2 & (T2 & _) & C2); [lia|].
  exists w1, w2, (init_events ISPCON_APUEN k1 x1 y1 ++ e1),
         (init_events ISPCON_LDUEN k2 x2 y2 ++ e2).
  split; [exact R1|]. split; [exact T1|]. split; [exact R2|]. split; [exact T2|].
  split.
  { unfold nu_m032_cmd_erase_mass.
    rewrite (bind_ok _ _ _ _ _ R1), (bind_ok _ _ _ _ _ R2). reflexivity. }
  destruct (init_events_facts ISPCON_APUEN k1 x1 y1) as (_ & A2 & _ & _ & _ & _ & _ & A8).
  destruct (init_events_facts ISPCON_LDUEN k2 x2 y2) as (_ & L2 & _ & _ & _ & _ & _ & L8).
  destruct (cmd_run_calls [Delay 100] eq_refl _ _ C1) as (_ & P1).
  destruct (cmd_run_calls [Delay 100] eq_refl _ _ C2) as (_ & P2).
  split.
  - rewrite !calls_of_app, A2, L2, P1, P2. reflexivity.
  - rewrite !existsb_app, A8, L8.
    rewrite (cmd_run_sprom [Delay 100] eq_refl _ _ C1) by reflexivity.
    rewrite (cmd_run_sprom [Delay 100] eq_refl _ _ C2) by reflexivity.
    reflexivity.
Qed.

Lemma lor_land_absorb y c : Z.lor (Z.land y c) c = c.
Proof.
  apply Z.bits_inj'. intros n _. rewrite Z.lor_spec, Z.land_spec.
  destruct (Z.testbit y n), (Z.testbit c n); reflexivity.
Qed.

(** Bits requested from the initializer are set in the value it writes to
    the ISP control register. *)
Lemma init_sets_requested_bits y conf :
  0 <= conf < 2 ^ 32 ->
  Z.land (u32 (Z.lor y (Z.lor (Z.lor ISPCON_ISPFF ISPCON_ISPEN) conf))) conf
  = conf.
Proof.
  intros C. unfold u32. rewrite <- Z.land_ones by lia.
  rewrite <- Z.land_assoc.
  replace (Z.land (Z.ones 32) conf) with conf.
  - rewrite Z.lor_assoc, Z.land_lor_distr_l, Z.land_diag.
    apply lor_land_absorb.
  - rewrite Z.land_comm, Z.land_ones by lia. symmetry. apply Z.mod_small. exact C.
Qed.

Lemma land_sub v conf b :
  Z.land v conf = conf -> Z.land conf b = b -> Z.land v b = b.
Proof.
  intros H1 H2. rewrite <- H2 at 1. rewrite Z.land_assoc, H1. exact H2.
Qed.

(** C7. The full-chip erase returns true after the initializer run with
    the main, loader and security unlock bits (all three are set in the
    value it writes to the ISP control register), followed by exactly one
    command: opcode chip-erase, address 0, payload 0.  The command register
    receives the chip-erase opcode, the address register 0, the trigger
    register the go bit, and the data register nothing. *)
Theorem erase_chip_single_command (hw : list event -> Z -> Z) (w : world) :
  exists w' d ispcon,
    nu_m032_cmd_erase_chip hw w = Ok true w' /\
    trace w' = trace w ++ d /\
    calls_of d
    = [ Call_init_isp (Z.lor (Z.lor ISPCON_APUEN ISPCON_LDUEN) ISPCON_SPUEN);
        Call_reg_unlock;
        Call_fmc_cmd FMC_ISPCMD_CHIPERASE 0 0 ] /\
    fmc_calls d = [(FMC_ISPCMD_CHIPERASE, 0, 0)] /\
    reg_writes NUMICRO_FLASH_ISPCMD d = [FMC_ISPCMD_CHIPERASE] /\
    reg_writes NUMICRO_FLASH_ISPADR d = [0] /\
    reg_writes NUMICRO_FLASH_ISPDAT d = [] /\
    reg_writes NUMICRO_FLASH_ISPTRG d = [ISPTRG_ISPGO] /\
    hd_error (reg_writes NUMICRO_FLASH_ISPCON d) = Some ispcon /\
    Z.land ispcon ISPCON_APUEN = ISPCON_APUEN /\
    Z.land ispcon ISPCON_LDUEN = ISPCON_LDUEN /\
    Z.land ispcon ISPCON_SPUEN = ISPCON_SPUEN.
Proof.
  destruct (cmd_erase_chip_run hw w) as (k & x & y & d & w' & R & (T & _) & E).
  set (conf := Z.lor (Z.lor ISPCON_APUEN ISPCON_LDUEN) ISPCON_SPUEN) in *.
  destruct (init_events_facts conf k x y) as (I1 & I2 & I3 & I4 & I5 & I6 & I7 & _).
  destruct (fmc_events_calls _ _ _ _ E) as (E1 & E2).
  destruct (fmc_events_writes _ _ _ _ E) as (W1 & W2 & W3 & W4).
  exists w', (init_events conf k x y ++ d ++ [Delay 100]),
         (u32 (Z.lor y (Z.lor (Z.lor ISPCON_ISPFF ISPCON_ISPEN) conf))).
  split; [exact R|]. split; [exact T|].
  rewrite !calls_of_app, !fmc_calls_app, !reg_writes_app,
    I1, I2, I3, I4, I5, I6, I7, E1, E2, W1, W2, W3, W4.
  repeat split; try reflexivity.
  all: apply (land_sub _ conf);
    [ apply init_sets_requested_bits; vm_compute; split; [discriminate | reflexivity]
    | reflexivity ].
Qed.

Lemma value_bind_never_false {A : Type} (m : M A) (f : A -> M bool) w :
  (forall a w', value (f a w') <> Some false) ->
  value (bind m f w) <> Some false.
Proof.
  intros H. unfold bind. destruct (m w); [apply H | discriminate | discriminate].
Qed.

Ltac never_false :=
  repeat (apply value_bind_never_false; intros); discriminate.

(** Symbolic execution through the initializer (which returns 0) and
    through a command. *)
Ltac run_init hw :=
  match goal with
  | |- context [bind (nu_m032_init_isp hw ?c) ?f ?w] =>
      let k := fresh "k" in
      let x := fresh "x" in
      let y := fresh "y" in
      let w' := fresh "w" in
      let R := fresh "R" in
      let S := fresh "S" in
      destruct (init_isp_run hw c w) as (k & x & y & w' & R & S);
      rewrite (bind_ok (nu_m032_init_isp hw c) f w 0 w' R); clear R;
      change (negb (0 =? 0)) with false; cbv beta iota
  end.

Ltac run_fmc hw :=
  match goal with
  | |- context [bind (nu_m032_fmc_cmd hw ?c ?a ?x) ?f ?w] =>
      let r := fresh "r" in
      let d := fresh "d" in
      let w' := fresh "w" in
      let R := fresh "R" in
      let S := fresh "S" in
      let E := fresh "E" in
      destruct (fmc_cmd_events hw c a x w) as (r & w' & d & R & S & E);
      rewrite (bind_ok (nu_m032_fmc_cmd hw c a x) f w r w' R); clear R;
      cbv beta
  end.

Section Handlers.

Variable hw : list event -> Z -> Z.
Variable lp64 : bool.

Lemma read_configs_run w : exists w', nu_m032_read_configs hw w = Ok true w'.
Proof.
  unfold nu_m032_read_configs. run_init hw. do 3 run_fmc hw. cbv zeta.
  destruct (config0_boots_from_ldrom (assigned 2882382797 r));
    destruct (config0_locked (assigned 2882382797 r));
    rewrite !bind_ret; run_read hw;
    destruct (Z.land v ISPCON_BS_MASK =? 0); rewrite bind_ret;
    eexists; reflexivity.
Qed.

Lemma read_uid_run w : exists w', nu_m032_read_uid hw w = Ok true w'.
Proof.
  unfold nu_m032_read_uid. run_init hw. do 3 run_fmc hw.
  eexists. reflexivity.
Qed.

Lemma read_cid_run w : exists w', nu_m032_read_cid hw w = Ok true w'.
Proof.
  unfold nu_m032_read_cid. run_init hw. do 4 run_fmc hw.
  eexists. reflexivity.
Qed.

Lemma read_aprom_page1_run (fuel : nat) w :
  (128 < fuel)%nat ->
  exists w', nu_m032_read_aprom_page1 hw lp64 fuel w = Ok true w'.
Proof.
  intros F. unfold nu_m032_read_aprom_page1. run_init hw.
  rewrite size_t_small by (vm_compute; split; [discriminate | reflexivity]).
  change NUMICRO_PAGESIZE with (4 * Z.of_nat 128).
  destruct (read_loop_run hw lp64 128 fuel NUMICRO_APROM_BASE w0)
    as (w1 & d1 & R1 & _); [exact F | pose proof (size_bits_ge lp64); lia |].
  rewrite (bind_ok _ _ _ _ _ R1).
  destruct (read_loop_run hw lp64 128 fuel
              (u32 (NUMICRO_APROM_BASE + 4 * Z.of_nat 128)) w1)
    as (w2 & d2 & R2 & _); [exact F | pose proof (size_bits_ge lp64); lia |].
  rewrite (bind_ok _ _ _ _ _ R2).
  eexists. reflexivity.
Qed.

Lemma run_handler_returns_true (h : cmd_handler) (fuel : nat) (w : world) :
  exists w', run_handler hw lp64 (129 + fuel) h w = Ok true w'.
Proof.
  destruct h; cbn [run_handler].
  - destruct (cmd_erase_aprom_run hw lp64 (129 + fuel) w)
      as (_ & _ & _ & _ & w' & R & _); [lia | eauto].
  - destruct (cmd_erase_ldrom_run hw lp64 (129 + fuel) w)
      as (_ & _ & _ & _ & w' & R & _); [lia | eauto].
  - destruct (cmd_erase_sprom_run hw lp64 (129 + fuel) w)
      as (_ & _ & _ & _ & w' & R & _); [lia | eauto].
  - destruct (cmd_erase_aprom_run hw lp64 (129 + fuel) w)
      as (_ & _ & _ & _ & w1 & R1 & _); [lia|].
    destruct (cmd_erase_ldrom_run hw lp64 (129 + fuel) w1)
      as (_ & _ & _ & _ & w2 & R2 & _); [lia|].
    exists w2. unfold nu_m032_cmd_erase_mass.
    rewrite (bind_ok _ _ _ _ _ R1), (bind_ok _ _ _ _ _ R2). reflexivity.
  - destruct (cmd_erase_chip_run hw w) as (_ & _ & _ & _ & w' & R & _). eauto.
  - exists w. reflexivity.
  - exists w. reflexivity.
  - exists w. reflexivity.
  - apply read_configs_run.
  - apply read_uid_run.
  - apply read_cid_run.
  - apply read_aprom_page1_run. lia.
Qed.

Lemma run_handler_never_false (h : cmd_handler) (fuel : nat) (w : world) :
  value (run_handler hw lp64 fuel h w) <> Some false.
Proof.
  destruct h; cbn [run_handler];
    try (unfold nu_m032_set_config0, nu_m032_set_config1, nu_m032_set_config2;
         discriminate).
  - unfold nu_m032_cmd_erase_aprom. run_init hw. never_false.
  - unfold nu_m032_cmd_erase_ldrom. run_init hw. never_false.
  - unfold nu_m032_cmd_erase_sprom. run_init hw. never_false.
  - unfold nu_m032_cmd_erase_mass. never_false.
  - unfold nu_m032_cmd_erase_chip. run_init hw. never_false.
  - unfold nu_m032_read_configs. run_init hw. never_false.
  - unfold nu_m032_read_uid. run_init hw. never_false.
  - unfold nu_m032_read_cid. run_init hw. never_false.
  - unfold nu_m032_read_aprom_page1. run_init hw. never_false.
Qed.

End Handlers.

(** C8. The register unlocker returns true whatever the device answers;
    the initializer therefore returns 0; and every maintenance command of
    the command table returns true once the model is given budget for its
    loops (129 iterations are enough for each) -- the device is arbitrary,
    so this includes devices on which every command times out.  Whatever
    the budget, no command returns false. *)
Theorem maintenance_always_succeeds (hw : list event -> Z -> Z) (lp64 : bool) :
  (forall w, exists w', nu_m032_reg_unlock hw w = Ok true w') /\
  (forall uExtraconf w, exists w', nu_m032_init_isp hw uExtraconf w = Ok 0 w') /\
  (forall h fuel w, exists w', run_handler hw lp64 (129 + fuel) h w = Ok true w') /\
  (forall h fuel w, value (run_handler hw lp64 fuel h w) <> Some false) /\
  (forall c, In c nu_m032_cmd_list ->
     forall fuel w, exists w',
       run_handler hw lp64 (129 + fuel) (cmd_handler_of c) w = Ok true w').
Proof.
  split; [|split; [|split; [|split]]].
  - intros w. destruct (reg_unlock_run hw w) as (k & w' & R & _). eauto.
  - intros c w. destruct (init_isp_run hw c w) as (k & x & y & w' & R & _). eauto.
  - intros. apply run_handler_returns_true.
  - intros. apply run_handler_never_false.
  - intros. apply run_handler_returns_true.
Qed.

(** * The probe *)


Section Probe.

Variable hw : list event -> Z -> Z.
Variable lp64 : bool.
Variable idcode_bits : Z.
Variables CPUID_PARTNO_MASK CORTEX_M0 : Z.

Lemma bind_get_target {B : Type} (f : target -> M B) w :
  bind get_target f w = f (tgt w) w.
Proof. reflexivity. Qed.

Lemma probe_reject (w : world) :
  chip_id_seen hw CPUID_PARTNO_MASK CORTEX_M0 w <> 0x01132D00 ->
  nu_m032_probe hw lp64 idcode_bits CPUID_PARTNO_MASK CORTEX_M0 w
  = Ok false
       (mk_world (mk_target (cpuid (tgt w))
                            (u16 (idcode (tgt w)) mod 2 ^ idcode_bits)
                            (driver (tgt w)))
                 (trace w ++ chip_id_reads hw CPUID_PARTNO_MASK CORTEX_M0 w) (heap w)).
Proof.
  unfold chip_id_seen, chip_id_reads, nu_m032_probe.
  intros H. rewrite bind_get_target. cbv zeta.
  destruct (Z.land (cpuid (tgt w)) CPUID_PARTNO_MASK =? CORTEX_M0).
  - unfold bind at 1, target_mem_read32. cbv zeta.
    apply Z.eqb_neq in H. rewrite H. reflexivity.
  - rewrite bind_ret. apply Z.eqb_neq in H. rewrite H.
    unfold bind, set_idcode, ret. cbn [tgt trace heap cpuid idcode driver].
    rewrite app_nil_r. reflexivity.
Qed.

Lemma probe_accept (w : world) :
  chip_id_seen hw CPUID_PARTNO_MASK CORTEX_M0 w = 0x01132D00 ->
  nu_m032_probe hw lp64 idcode_bits CPUID_PARTNO_MASK CORTEX_M0 w
  = Ok true
       (mk_world (mk_target (cpuid (tgt w)) (idcode (tgt w)) "M032LD2AE")
                 (trace w
                  ++ Rd NUMICRO_CHIP_ID_ADDRESS 0x01132D00
                  :: AddRam 0x20000000 0x2000
                  :: registered
                       [ mk_flash 0x0 0x10000 512 Fn_nu_m032_flash_erase
                                  Fn_nu_m032_flash_write 512 0xff;
                         mk_flash 0x100000 0x800 512 Fn_nu_m032_flash_erase
                                  Fn_nu_m032_flash_write 512 0xff;
                         mk_flash 0x300000 12 4 Fn_nu_m032_flash_erase
                                  Fn_nu_m032_flash_write 4 0xff ]
                       (heap w)
                  ++ [AddCommands nu_m032_cmd_list "M032xxxxx"])
                 (skipn 3 (heap w))).
Proof.
  unfold chip_id_seen, nu_m032_probe.
  intros H. rewrite bind_get_target. cbv zeta.
  destruct (Z.land (cpuid (tgt w)) CPUID_PARTNO_MASK =? CORTEX_M0);
    [|discriminate].
  unfold bind at 1, target_mem_read32. cbv zeta. rewrite H.
  change (0x01132D00 =? 0x01132D00) with true. cbv iota.
  destruct w as [t tr hp]. cbn [tgt trace heap] in *.
  destruct hp as [|b1 [|b2 [|b3 hp]]];
    try destruct b1; try destruct b2; try destruct b3;
    destruct lp64; cbv [bind set_driver target_add_ram nu_m032_add_flash
                        target_add_commands calloc emit ret negb
                        tgt trace heap cpuid idcode driver registered skipn];
    rewrite <- ?app_assoc; reflexivity.
Qed.

End Probe.

Lemma idcode_store_back (idcode_bits x : Z) :
  0 <= x < 2 ^ idcode_bits -> u16 x mod 2 ^ idcode_bits = u16 x.
Proof.
  intros B. unfold u16.
  assert (0 <= x mod 2 ^ 16 < 2 ^ 16) by (apply Z.mod_pos_bound; lia).
  destruct (Z_lt_le_dec idcode_bits 16) as [L | G].
  - assert (0 <= idcode_bits).
    { destruct (Z_lt_le_dec idcode_bits 0) as [N|P]; [|exact P].
      rewrite (Z.pow_neg_r 2 idcode_bits N) in B. lia. }
    assert (2 ^ idcode_bits <= 2 ^ 16) by (apply Z.pow_le_mono_r; lia).
    rewrite (Z.mod_small x (2 ^ 16)) by lia. apply Z.mod_small. lia.
  - assert (2 ^ 16 <= 2 ^ idcode_bits) by (apply Z.pow_le_mono_r; lia).
    apply Z.mod_small. lia.
Qed.

(** C2, as the code has it.  When the core matches and the chip-ID
    register reads 0x01132D00, the probe returns true having set the RAM
    size 0x2000 and registered, of main {0x0, 0x10000, 512}, loader
    {0x100000, 0x800, 512} and configuration {0x300000, 12, 4}, in this
    order, those whose bookkeeping object could be allocated: all three
    when the three allocations succeed.  For every other chip identifier
    the probe returns false, registers nothing, and restores the identifier
    field to its pre-probe value: the field is the 16-bit one that the copy
    of line 848 is declared for, and the whole target record is then as it
    was before the probe.  What is stored back is in every case the copy
    taken on entry. *)
Theorem probe_installs_or_restores
  (hw : list event -> Z -> Z) (lp64 : bool)
  (idcode_bits CPUID_PARTNO_MASK CORTEX_M0 : Z) (w : world) :
  0 <= idcode (tgt w) < 2 ^ idcode_bits ->
  (Z.land (cpuid (tgt w)) CPUID_PARTNO_MASK = CORTEX_M0 ->
   u32 (hw (trace w) NUMICRO_CHIP_ID_ADDRESS) = 0x01132D00 ->
   exists w' regions,
     nu_m032_probe hw lp64 idcode_bits CPUID_PARTNO_MASK CORTEX_M0 w
     = Ok true w' /\
     trace w'
     = trace w
       ++ Rd NUMICRO_CHIP_ID_ADDRESS 0x01132D00
       :: AddRam 0x20000000 0x2000
       :: regions
       ++ [AddCommands nu_m032_cmd_list "M032xxxxx"] /\
     regions
     = registered
         [ mk_flash 0x0 0x10000 512 Fn_nu_m032_flash_erase
                    Fn_nu_m032_flash_write 512 0xff;
           mk_flash 0x100000 0x800 512 Fn_nu_m032_flash_erase
                    Fn_nu_m032_flash_write 512 0xff;
           mk_flash 0x300000 12 4 Fn_nu_m032_flash_erase
                    Fn_nu_m032_flash_write 4 0xff ]
         (heap w) /\
     (firstn 3 (heap w) = [true; true; true] ->
      regions
      = [ AddFlash (mk_flash 0x0 0x10000 512 Fn_nu_m032_flash_erase
                             Fn_nu_m032_flash_write 512 0xff);
          AddFlash (mk_flash 0x100000 0x800 512 Fn_nu_m032_flash_erase
                             Fn_nu_m032_flash_write 512 0xff);
          AddFlash (mk_flash 0x300000 12 4 Fn_nu_m032_flash_erase
                             Fn_nu_m032_flash_write 4 0xff) ]) /\
     tgt w' = mk_target (cpuid (tgt w)) (idcode (tgt w)) "M032LD2AE" /\
     heap w' = skipn 3 (heap w))
  /\
  (chip_id_seen hw CPUID_PARTNO_MASK CORTEX_M0 w <> 0x01132D00 ->
   exists w',
     nu_m032_probe hw lp64 idcode_bits CPUID_PARTNO_MASK CORTEX_M0 w
     = Ok false w' /\
     idcode (tgt w') = u16 (idcode (tgt w)) /\
     (idcode (tgt w) < 2 ^ 16 -> idcode (tgt w') = idcode (tgt w)) /\
     (idcode_bits <= 16 -> tgt w' = tgt w) /\
     cpuid (tgt w') = cpuid (tgt w) /\
     driver (tgt w') = driver (tgt w) /\
     trace w' = trace w ++ chip_id_reads hw CPUID_PARTNO_MASK CORTEX_M0 w /\
     heap w' = heap w).
Proof.
  intros B. split.
  - intros Hc Hid. eexists. eexists.
    split; [apply probe_accept; unfold chip_id_seen;
            apply Z.eqb_eq in Hc; rewrite Hc; exact Hid|].
    cbn [tgt trace heap]. repeat split; try reflexivity.
    intros Hh. destruct (heap w) as [|b1 [|b2 [|b3 hp]]]; try discriminate.
    cbn [firstn] in Hh. inversion Hh; subst. reflexivity.
  - intros Hn. eexists. split; [apply probe_reject; exact Hn|].
    cbn [tgt idcode cpuid driver trace heap].
    rewrite (idcode_store_back idcode_bits _ B).
    assert (S16 : idcode (tgt w) < 2 ^ 16 ->
                  u16 (idcode (tgt w)) = idcode (tgt w)).
    { intros Hs. unfold u16. apply Z.mod_small. lia. }
    split; [reflexivity|]. split; [exact S16|]. split.
    + intros Hb. rewrite S16; [destruct (tgt w); reflexivity|].
      destruct (Z_lt_le_dec idcode_bits 0) as [N|P].
      * rewrite (Z.pow_neg_r 2 idcode_bits N) in B. lia.
      * assert (2 ^ idcode_bits <= 2 ^ 16) by (apply Z.pow_le_mono_r; lia).
        lia.
    + repeat split; reflexivity.
Qed.

(** C9. On the rejection path the identifier field ends up holding the
    pre-probe identifier modulo 2^16: the same value when that fits in 16
    bits, and a value below 2^16 -- the low 16 bits, the upper bits being
    lost -- when it does not. *)
Theorem probe_reject_truncates_idcode
  (hw : list event -> Z -> Z) (lp64 : bool)
  (idcode_bits CPUID_PARTNO_MASK CORTEX_M0 : Z) (w w' : world) :
  0 <= idcode (tgt w) < 2 ^ idcode_bits ->
  nu_m032_probe hw lp64 idcode_bits CPUID_PARTNO_MASK CORTEX_M0 w = Ok false w' ->
  idcode (tgt w') = idcode (tgt w) mod 2 ^ 16 /\
  (idcode (tgt w) < 2 ^ 16 -> idcode (tgt w') = idcode (tgt w)) /\
  (2 ^ 16 <= idcode (tgt w) ->
   idcode (tgt w') = Z.land (idcode (tgt w)) 0xFFFF /\
   idcode (tgt w') < 2 ^ 16 /\
   idcode (tgt w') <> idcode (tgt w)).
Proof.
  intros B R.
  assert (Hn : chip_id_seen hw CPUID_PARTNO_MASK CORTEX_M0 w <> 0x01132D00).
  { intros He.
    rewrite (probe_accept hw lp64 idcode_bits CPUID_PARTNO_MASK CORTEX_M0 w He)
      in R.
    discriminate. }
  rewrite (probe_reject hw lp64 idcode_bits CPUID_PARTNO_MASK CORTEX_M0 w Hn) in R.
  inversion R; subst w'; clear R. cbn [tgt idcode].
  rewrite (idcode_store_back idcode_bits _ B). unfold u16.
  assert (M : 0 <= idcode (tgt w) mod 2 ^ 16 < 2 ^ 16)
    by (apply Z.mod_pos_bound; lia).
  split; [reflexivity|]. split.
  - intros Hs. apply Z.mod_small. lia.
  - intros Hl. split; [|split; lia].
    change 0xFFFF with (Z.ones 16). rewrite Z.land_ones by lia. reflexivity.
Qed.

(** C2 fails as stated.  With the heap used up, calloc returns NULL in each
    of the three calls of nu_m032_add_flash, and the probe of an M032LD2AE
    (matching core, chip-ID register reading 0x01132D00, 16-bit identifier
    field) returns true having set the RAM and the commands, but without
    registering the main, the loader or the configuration region. *)
Lemma probe_skips_regions_without_heap :
  let r := nu_m032_probe hw_m032 false 16 0xfff0 0xc200 w_no_heap in
  Z.land (cpuid (tgt w_no_heap)) 0xfff0 = 0xc200 /\
  u32 (hw_m032 (trace w_no_heap) NUMICRO_CHIP_ID_ADDRESS) = 0x01132D00 /\
  heap w_no_heap = [] /\
  value r = Some true /\
  trace (final r)
  = [ Rd NUMICRO_CHIP_ID_ADDRESS 0x01132D00;
      AddRam 0x20000000 0x2000;
      AddCommands nu_m032_cmd_list "M032xxxxx" ].
Proof. vm_compute. repeat split; reflexivity. Qed.

(** * The theorems at work on concrete runs *)

(** Two pages erased at 0x100 on a device that never completes a command:
    both commands are issued all the same. *)
Lemma flash_erase_page_sequence_witness :
  0 <= 1024 < 2 ^ size_bits false /\
  1024 mod NUMICRO_PAGESIZE = 0 /\
  (Z.to_nat (1024 / NUMICRO_PAGESIZE) < 3)%nat /\
  fmc_calls (trace (final (nu_m032_flash_erase hw_stuck false 3 0x100 1024 w_boot)))
  = [(FMC_ISPCMD_ERASE, 0x100, 0); (FMC_ISPCMD_ERASE, 0x300, 0)].
Proof.
  assert (H1 : 0 <= 1024 < 2 ^ size_bits false) by (unfold size_bits; lia).
  assert (H2 : 1024 mod NUMICRO_PAGESIZE = 0) by reflexivity.
  assert (H3 : (Z.to_nat (1024 / NUMICRO_PAGESIZE) < 3)%nat) by (vm_compute; lia).
  repeat (split; [assumption|]).
  destruct (flash_erase_page_sequence hw_stuck false 3 0x100 1024 w_boot H1 H2 H3)
    as (w' & d & R & T & _ & C & _).
  rewrite R. cbn [final]. rewrite T. exact C.
Defined.

(** Two words written at 0x100 from a three-word buffer. *)
Lemma flash_write_word_sequence_witness :
  0 <= 8 < 2 ^ size_bits true /\
  8 mod 4 = 0 /\
  (Z.to_nat (8 / 4) <= List.length src_three_words)%nat /\
  Forall (fun x => 0 <= x < 2 ^ 32) src_three_words /\
  (Z.to_nat (8 / 4) < 3)%nat /\
  fmc_calls (trace (final (nu_m032_flash_write hw_idle true 3 0x100
                             src_three_words 8 w_boot)))
  = [(FMC_ISPCMD_WRITE, 0x100, 0x11223344); (FMC_ISPCMD_WRITE, 0x104, 0xDEADBEEF)].
Proof.
  assert (H1 : 0 <= 8 < 2 ^ size_bits true) by (unfold size_bits; lia).
  assert (H2 : 8 mod 4 = 0) by reflexivity.
  assert (H3 : (Z.to_nat (8 / 4) <= List.length src_three_words)%nat)
    by (vm_compute; lia).
  assert (H4 : Forall (fun x => 0 <= x < 2 ^ 32) src_three_words)
    by (unfold src_three_words; repeat constructor; lia).
  assert (H5 : (Z.to_nat (8 / 4) < 3)%nat) by (vm_compute; lia).
  repeat (split; [assumption|]).
  destruct (flash_write_word_sequence hw_idle true 3 0x100
              src_three_words 8 w_boot H1 H2 H3 H4 H5)
    as (w' & d & R & T & _ & C & _).
  rewrite R. cbn [final]. rewrite T. exact C.
Defined.

(** The mass erase with budget for 129 iterations. *)
Lemma erase_mass_is_aprom_then_ldrom_witness :
  (128 < 129)%nat /\
  value (nu_m032_cmd_erase_mass hw_idle false 129 w_boot) = Some true /\
  existsb touches_sprom
    (trace (final (nu_m032_cmd_erase_mass hw_idle false 129 w_boot))) = false.
Proof.
  assert (H : (128 < 129)%nat) by lia.
  split; [exact H|].
  destruct (erase_mass_is_aprom_then_ldrom hw_idle false 129 w_boot H)
    as (w1 & w2 & d1 & d2 & _ & T1 & _ & T2 & R & _ & S).
  rewrite R. cbn [value final]. split; [reflexivity|].
  rewrite T2, T1. cbn [trace w_boot app]. exact S.
Defined.

(** The probe of an M032LD2AE and the probe of another part, with a
    16-bit identifier field: the first succeeds, the second fails and
    leaves the target record as it found it. *)
Lemma probe_installs_or_restores_witness :
  0 <= idcode (tgt w_boot) < 2 ^ 16 /\
  value (nu_m032_probe hw_m032 false 16 0xfff0 0xc200 w_boot) = Some true /\
  value (nu_m032_probe hw_other false 16 0xfff0 0xc200 w_boot) = Some false /\
  tgt (final (nu_m032_probe hw_other false 16 0xfff0 0xc200 w_boot))
  = tgt w_boot.
Proof.
  assert (H : 0 <= idcode (tgt w_boot) < 2 ^ 16) by (cbn; lia).
  split; [exact H|].
  destruct (probe_installs_or_restores hw_m032 false 16 0xfff0 0xc200 w_boot H)
    as (A & _).
  destruct (A eq_refl eq_refl) as (w1 & regions & R1 & _).
  destruct (probe_installs_or_restores hw_other false 16 0xfff0 0xc200 w_boot H)
    as (_ & B).
  destruct B as (w2 & R2 & _ & _ & T & _); [vm_compute; discriminate|].
  rewrite R1, R2. cbn [value final].
  split; [reflexivity|]. split; [reflexivity|].
  apply T. lia.
Defined.

(** A rejected probe with a 32-bit identifier field holding 0x10449. *)
Lemma probe_reject_truncates_idcode_witness :
  0 <= idcode (tgt w_wide_id) < 2 ^ 32 /\
  idcode (tgt (final (nu_m032_probe hw_other false 32 0xfff0 0xc200 w_wide_id)))
  = 0x0449.
Proof.
  assert (H : 0 <= idcode (tgt w_wide_id) < 2 ^ 32) by (cbn; lia).
  split; [exact H|].
  destruct (probe_reject_truncates_idcode hw_other false 32 0xfff0 0xc200
              w_wide_id
              (final (nu_m032_probe hw_other false 32 0xfff0 0xc200 w_wide_id))
              H eq_refl) as (E & _).
  rewrite E. reflexivity.
Defined.
